(** * webkinect mesh server: a shallow embedding of the two Flask services

    [src/mesh-server/app.py] (Open3D, Ball Pivoting) and
    [src/mesh-server/app_trimesh_alternative.py] (trimesh, Alpha Shape).

    The request handlers are embedded as functions in a state-and-exception
    monad over a world made of the file system, the log of files written, the
    log of library reconstruction calls and a clock.  The third-party
    libraries (Open3D, trimesh, scipy, numpy), Flask's request parsing and the
    Python builtins [float], [int] and [json.loads] are interfaces: every
    theorem holds for all their implementations, and small concrete
    implementations are used to run the handlers on explicit requests.

    Python floats are modelled by exact rationals ([Q]); rounding, infinities
    and NaN are outside the model, while the conversion of an [int] beyond
    the doubles raises OverflowError as in Python.  [uuid.uuid4] is an
    interface as well: the requests of a run draw its results one by one. *)

From Stdlib Require Import String Ascii List ZArith QArith Bool Lia Lqa.
From Stdlib.Strings Require Import Byte.
From stdpp Require Import gmap strings.
Import ListNotations.

Set Warnings "-register-all".
Open Scope string_scope.
Open Scope Z_scope.

(** ** Python values and exceptions *)

Module Py.

(** An exception instance: [type(e).__name__] and [str(e)].  Only classes
    deriving from [Exception] are raised by the modelled code and libraries. *)
Record exn := Exn { exn_type : string; exn_msg : string }.

Inductive res (A : Type) : Type :=
| Ok (a : A)
| Raise (e : exn).
Arguments Ok {A} a.
Arguments Raise {A} e.

Definition rbind {A B} (r : res A) (k : A -> res B) : res B :=
  match r with
  | Ok a => k a
  | Raise e => Raise e
  end.

Notation "'let?' x := r 'in' k" := (rbind r (fun x => k))
  (at level 10, x pattern, r at level 100, k at level 200).

(** The values [json.loads] / [request.get_json] produce.  A JSON object is
    the list of the items of the resulting [dict] (keys pairwise distinct). *)
Inductive json :=
| JNull
| JBool (b : bool)
| JInt (z : Z)
| JFloat (q : Q)
| JStr (s : string)
| JArr (l : list json)
| JObj (items : list (string * json)).

Definition bytes := list byte.

Definition ValueError (msg : string) : exn := Exn "ValueError" msg.
Definition TypeError (msg : string) : exn := Exn "TypeError" msg.
Definition KeyError (key : string) : exn := Exn "KeyError" ("'" ++ key ++ "'").
Definition AttributeError (msg : string) : exn := Exn "AttributeError" msg.
Definition IOError (msg : string) : exn := Exn "OSError" msg.
Definition OverflowError (msg : string) : exn := Exn "OverflowError" msg.
Definition FileNotFoundError (path : string) : exn :=
  Exn "FileNotFoundError" ("[Errno 2] No such file or directory: '" ++ path ++ "'").

(** [type(v).__name__] *)
Definition type_name (v : json) : string :=
  match v with
  | JNull => "NoneType"
  | JBool _ => "bool"
  | JInt _ => "int"
  | JFloat _ => "float"
  | JStr _ => "str"
  | JArr _ => "list"
  | JObj _ => "dict"
  end.

(** The numeric value of an [int], [float] or [bool]. *)
Definition as_number (v : json) : option Q :=
  match v with
  | JInt z => Some (inject_Z z)
  | JFloat q => Some q
  | JBool b => Some (if b then 1%Q else 0%Q)
  | _ => None
  end.

(** [not v] is [negb (truthy v)]. *)
Definition truthy (v : json) : bool :=
  match v with
  | JNull => false
  | JBool b => b
  | JInt z => negb (z =? 0)
  | JFloat q => negb (Qeq_bool q 0)
  | JStr s => negb (String.eqb s "")
  | JArr l => match l with [] => false | _ => true end
  | JObj items => match items with [] => false | _ => true end
  end.

Fixpoint dict_lookup (key : string) (items : list (string * json)) : option json :=
  match items with
  | [] => None
  | (k, v) :: rest => if String.eqb k key then Some v else dict_lookup key rest
  end.

(** [d.get(key, default)] on a [dict] *)
Definition dict_get (items : list (string * json)) (key : string) (default : json) : json :=
  match dict_lookup key items with
  | Some v => v
  | None => default
  end.

(** [v.get(key, default)] on any value: only a [dict] has the method. *)
Definition py_get (v : json) (key : string) (default : json) : res json :=
  match v with
  | JObj items => Ok (dict_get items key default)
  | _ => Raise (AttributeError ("'" ++ type_name v ++ "' object has no attribute 'get'"))
  end.

(** [v[key]] with a string key *)
Definition py_getitem (v : json) (key : string) : res json :=
  match v with
  | JObj items =>
      match dict_lookup key items with
      | Some x => Ok x
      | None => Raise (KeyError key)
      end
  | JArr _ => Raise (TypeError "list indices must be integers or slices, not str")
  | JStr _ => Raise (TypeError "string indices must be integers, not 'str'")
  | _ => Raise (TypeError ("'" ++ type_name v ++ "' object is not subscriptable"))
  end.

(** [v > 1] *)
Definition py_gt_1 (v : json) : res bool :=
  match as_number v with
  | Some q => Ok (negb (Qle_bool q 1))
  | None => Raise (TypeError ("'>' not supported between instances of '"
                                ++ type_name v ++ "' and 'int'"))
  end.

(** [float(z)] of an [int] raises beyond the doubles: the largest double is
    2^1024 - 2^971, and from 2^1024 - 2^970 on the nearest one would be 2^1024. *)
Definition float_overflows (z : Z) : bool := (2 ^ 1024 - 2 ^ 970 <=? Z.abs z)%Z.

Definition int_beyond_float (v : json) : bool :=
  match v with
  | JInt z => float_overflows z
  | _ => false
  end.

(** [v / 255.0]: an [int] is converted to [float] first. *)
Definition py_div_255 (v : json) : res json :=
  match as_number v with
  | Some q =>
      if int_beyond_float v
      then Raise (OverflowError "int too large to convert to float")
      else Ok (JFloat (q / 255))
  | None => Raise (TypeError ("unsupported operand type(s) for /: '"
                                ++ type_name v ++ "' and 'float'"))
  end.

(** [for p in v]: the items iterated over, for the values whose elements are
    again JSON values; iterating a [str] or a [dict] yields strings. *)
Definition py_iter (v : json) : res (list json) :=
  match v with
  | JArr l => Ok l
  | JStr s => Ok (map (fun c => JStr (String c EmptyString)) (list_ascii_of_string s))
  | JObj items => Ok (map (fun kv => JStr (fst kv)) items)
  | _ => Raise (TypeError ("'" ++ type_name v ++ "' object is not iterable"))
  end.

(** [[f(p) for p in l]] where [f] may raise *)
Fixpoint mapM {A B} (f : A -> res B) (l : list A) : res (list B) :=
  match l with
  | [] => Ok []
  | x :: rest =>
      let? y := f x in
      let? ys := mapM f rest in
      Ok (y :: ys)
  end.

(** [range(n)] *)
Definition range (n : Z) : list Z := map Z.of_nat (seq 0 (Z.to_nat n)).

End Py.
Export Py.

(** ** The world, and the monad of the handlers *)

(** The calls into the surface-reconstruction routines of the libraries, with
    the numeric arguments they receive. *)
Inductive call :=
| BallPivoting (radii : list Q)
| AlphaShape (alpha : Q)
| ConvexHull.

(** [fs]: the files under the working directory, by path; [written]: the
    paths written so far, oldest first; [calls]: the reconstruction calls
    made so far, oldest first, each with the exception it raised, if any;
    [ticks]: how often the clock has been read. *)
Record world := World {
  fs : gmap string bytes;
  written : list string;
  calls : list (call * option exn);
  ticks : nat
}.

(** What the handlers use but neither the repository nor the geometry
    libraries define: Python builtins, the clock and the operating system. *)
Class Host := {
  py_float : string -> res Q;            (* float(s) *)
  py_int : string -> res Z;              (* int(s) *)
  json_loads : string -> res json;       (* json.loads(s) *)
  np_mean : list Q -> res Q;             (* numpy.mean *)
  clock : nat -> Q;                      (* the n-th reading of datetime.now(), in seconds *)
  open_error : string -> option exn;     (* open(path, 'wb') fails with *)
  remove_error : string -> option exn    (* os.remove(path) on an existing file fails with *)
}.

Module Monad.

(** A computation returns or raises, and in both cases leaves a world. *)
Definition M (A : Type) : Type := world -> res A * world.

Definition ret {A} (a : A) : M A := fun w => (Ok a, w).
Definition raise {A} (e : exn) : M A := fun w => (Raise e, w).
Definition lift {A} (r : res A) : M A := fun w => (r, w).

Definition bind {A B} (m : M A) (k : A -> M B) : M B :=
  fun w =>
    match m w with
    | (Ok a, w') => k a w'
    | (Raise e, w') => (Raise e, w')
    end.

(** [try: m / except: pass] *)
Definition try_pass (m : M unit) : M unit :=
  fun w =>
    match m w with
    | (Ok _, w') => (Ok tt, w')
    | (Raise _, w') => (Ok tt, w')
    end.

(** [try: m / except Exception as e: h(e)] *)
Definition try_except {A} (m : M A) (h : exn -> M A) : M A :=
  fun w =>
    match m w with
    | (Ok a, w') => (Ok a, w')
    | (Raise e, w') => h e w'
    end.

End Monad.
Export Monad.

Notation "x <- m ;; k" := (bind m (fun x => k))
  (at level 100, m at next level, right associativity).
Notation "m ;;; k" := (bind m (fun _ => k))
  (at level 100, right associativity).

Section HostOps.
Context {H : Host}.

(** The file [path] is created or replaced with content [data]. *)
Definition store (path : string) (data : bytes) : M unit :=
  fun w => (Ok tt, World (<[path := data]> (fs w)) (written w ++ [path]) (calls w) (ticks w)).

(** [with open(path, 'wb') as f: f.write(data)] *)
Definition open_write (path : string) (data : bytes) : M unit :=
  match open_error path with
  | Some e => raise e
  | None => store path data
  end.

(** [os.remove(path)] *)
Definition os_remove (path : string) : M unit :=
  fun w =>
    match fs w !! path with
    | None => (Raise (FileNotFoundError path), w)
    | Some _ =>
        match remove_error path with
        | Some e => (Raise e, w)
        | None => (Ok tt, World (delete path (fs w)) (written w) (calls w) (ticks w))
        end
    end.

(** [datetime.now()] *)
Definition now : M Q :=
  fun w => (Ok (clock (ticks w)), World (fs w) (written w) (calls w) (S (ticks w))).

(** [json.loads(json_data) if isinstance(json_data, str) else json_data],
    the first statement of both JSON conversions *)
Definition load_data (json_data : json) : res json :=
  match json_data with
  | JStr s => json_loads s
  | _ => Ok json_data
  end.

(** The outcome [r] of the reconstruction call [c], entered in the log. *)
Definition raised {A} (r : res A) : option exn :=
  match r with
  | Ok _ => None
  | Raise e => Some e
  end.

Definition library_call {A} (c : call) (r : res A) : M A :=
  fun w => (r, World (fs w) (written w) (calls w ++ [(c, raised r)]) (ticks w)).

End HostOps.

(** ** Flask: requests and responses *)

(** [args]: the query string, in order ([request.args.get] returns the first
    value of a key); [get_json]: what [request.get_json()] returns or raises
    for this body. *)
Record request := Request {
  args : list (string * string);
  content_type : option string;
  data : bytes;
  get_json : res json
}.

Fixpoint args_lookup (key : string) (a : list (string * string)) : option string :=
  match a with
  | [] => None
  | (k, v) :: rest => if String.eqb k key then Some v else args_lookup key rest
  end.

(** [request.args.get(key, default)] for a string default *)
Definition args_get (r : request) (key default : string) : string :=
  match args_lookup key (args r) with
  | Some v => v
  | None => default
  end.

(** The text of a header set with [str(v)]: the value [v] it prints. *)
Inductive printed :=
| StrInt (z : Z)
| StrFloat (q : Q).

Inductive response :=
| SendFile (body : bytes) (mimetype download_name : string)
           (headers : list (string * printed))           (* status 200 *)
| Jsonify (status : Z) (body : json).

(** [jsonify({'error': str(e), 'type': type(e).__name__}), 500] *)
Definition error_response (e : exn) : response :=
  Jsonify 500 (JObj [("error", JStr (exn_msg e)); ("type", JStr (exn_type e))]).

(** [send_file(path, mimetype=..., as_attachment=True, download_name=...)] *)
Definition send_file (path mimetype download_name : string) : M response :=
  fun w =>
    match fs w !! path with
    | Some body => (Ok (SendFile body mimetype download_name []), w)
    | None => (Raise (FileNotFoundError path), w)
    end.

(** [response.headers[name] = str(v)] *)
Definition set_header (r : response) (name : string) (v : printed) : response :=
  match r with
  | SendFile body mt dn hs => SendFile body mt dn (hs ++ [(name, v)])
  | Jsonify st body => Jsonify st body
  end.

(** A route function: the whole body is one [try] whose [except Exception]
    clause answers with [error_response]. *)
Definition handler (body : M response) : world -> response * world :=
  fun w =>
    match body w with
    | (Ok r, w') => (r, w')
    | (Raise e, w') => (error_response e, w')
    end.

(** The directories both services create at start-up, and the path of the
    file a request identified by [file_id] reads or writes there. *)
Definition upload_path (file_id ext : string) : string := "uploads/" ++ file_id ++ "." ++ ext.
Definition output_path (file_id ext : string) : string := "outputs/" ++ file_id ++ "." ++ ext.


(** The files a request identified by [file_id] may change: every other path
    holds after the request what it held before. *)
Definition only_touches (file_id : string) (before after : gmap string bytes) : Prop :=
  forall p,
    (forall ext, p <> upload_path file_id ext) ->
    (forall ext, p <> output_path file_id ext) ->
    after !! p = before !! p.




(** [request.content_type == 'application/json'] *)
Definition is_json (r : request) : bool :=
  match content_type r with
  | Some ct => String.eqb ct "application/json"
  | None => false
  end.

(** ** app.py: the Open3D service *)

Module App.

(** The part of Open3D (and of numpy's array construction) the service calls.
    A method that mutates its receiver returns the new value.  A writer
    returns [Some data] when it wrote [data] to the path (and reports
    success), [None] when it wrote nothing (and reports failure). *)
Class Open3D := {
  pcd : Type;
  mesh : Type;
  read_point_cloud : string -> option bytes -> res pcd;
  has_points : pcd -> bool;
  len_points : pcd -> Z;
  has_normals : pcd -> bool;
  has_colors : pcd -> bool;
  compute_nearest_neighbor_distance : pcd -> res (list Q);
  estimate_normals : pcd -> Q -> Z -> res pcd;   (* KDTreeSearchParamHybrid(radius, max_nn) *)
  orient_normals_consistent_tangent_plane : pcd -> Z -> res pcd;
  create_from_point_cloud_ball_pivoting : pcd -> list Q -> res mesh;
  has_triangles : mesh -> bool;
  len_vertices : mesh -> Z;
  len_triangles : mesh -> Z;
  remove_duplicated_vertices : mesh -> res mesh;
  remove_duplicated_triangles : mesh -> res mesh;
  remove_degenerate_triangles : mesh -> res mesh;
  remove_unreferenced_vertices : mesh -> res mesh;
  compute_vertex_normals : mesh -> res mesh;
  write_triangle_mesh : string -> mesh -> res (option bytes);
  (* PointCloud() with .points and .colors set from np.array(coords), np.array(colors) *)
  point_cloud_of : list (list json) -> list (list json) -> res pcd;
  write_point_cloud : string -> pcd -> res (option bytes)
}.

(** The [params] dictionary: a key is present or not. *)
Record params := Params {
  radius_multiplier : option Q;
  num_radii : option Z;
  p_estimate_normals : option bool;
  normal_radius : option Q;
  normal_max_nn : option Z
}.

(** The returned statistics dictionary *)
Record stats := Stats {
  num_input_points : Z;
  num_vertices : Z;
  num_triangles : Z;
  processing_time : Q;
  radii_used : list Q;
  avg_point_distance : Q
}.

(** Lines 104-108: one radius per [i] in [range(num_radii)]. *)
Definition ball_radii (avg_dist radius_multiplier : Q) (num_radii : Z) : list Q :=
  map (fun i => let multiplier := (radius_multiplier * (1 + inject_Z i * (1 # 2)))%Q in
                (avg_dist * multiplier)%Q)
      (range num_radii).

(** Lines 202-204: one colour channel of a point. *)
Definition normalize_channel (p : json) (key : string) : res json :=
  let? c := py_get p key (JInt 128) in
  let? above := py_gt_1 c in
  if above : bool
  then let? v := py_get p key (JInt 128) in py_div_255 v
  else py_get p key (JFloat (1 # 2)).

(** Lines 200-205: the coordinates and the colour of one point. *)
Definition point_row (p : json) : res (list json * list json) :=
  let? x := py_getitem p "x" in
  let? y := py_getitem p "y" in
  let? z := py_getitem p "z" in
  let? r := normalize_channel p "r" in
  let? g := normalize_channel p "g" in
  let? b := normalize_channel p "b" in
  Ok ([x; y; z], [r; g; b]).

Section Service.
Context {H : Host} {L : Open3D}.

Definition read_file (path : string) : M (option bytes) := fun w => (Ok (fs w !! path), w).

(** A library writer called on [path] *)
Definition library_write (path : string) (r : res (option bytes)) : M bool :=
  o <- lift r ;;
  match o with
  | Some data => store path data ;;; ret true
  | None => ret false
  end.

Definition mean_distance (cloud : pcd) : M Q :=
  distances <- lift (compute_nearest_neighbor_distance cloud) ;;
  lift (np_mean distances).

Definition reconstruct_mesh_ball_pivoting (input_path output_path : string) (ps : params)
  : M stats :=
  let radius_multiplier := default (3 # 2)%Q (radius_multiplier ps) in
  let num_radii := default 2 (num_radii ps) in
  let estimate := default true (p_estimate_normals ps) in
  let normal_max_nn := default 30 (normal_max_nn ps) in
  content <- read_file input_path ;;
  cloud <- lift (read_point_cloud input_path content) ;;
  if negb (has_points cloud) then raise (ValueError "Point cloud is empty!") else
  let num_points := len_points cloud in
  cloud <- (if estimate || negb (has_normals cloud)
            then
              radius <- match normal_radius ps with
                        | Some r => ret r
                        | None => avg_dist <- mean_distance cloud ;; ret (avg_dist * 2)%Q
                        end ;;
              cloud <- lift (estimate_normals cloud radius normal_max_nn) ;;
              lift (orient_normals_consistent_tangent_plane cloud 15)
            else ret cloud) ;;
  avg_dist <- mean_distance cloud ;;
  let radii := ball_radii avg_dist radius_multiplier num_radii in
  start_time <- now ;;
  m <- library_call (BallPivoting radii)
                    (create_from_point_cloud_ball_pivoting cloud radii) ;;
  end_time <- now ;;
  let elapsed := (end_time - start_time)%Q in
  if negb (has_triangles m) then raise (ValueError "Ball Pivoting failed to generate mesh!") else
  m <- lift (remove_duplicated_vertices m) ;;
  m <- lift (remove_duplicated_triangles m) ;;
  m <- lift (remove_degenerate_triangles m) ;;
  m <- lift (remove_unreferenced_vertices m) ;;
  m <- lift (compute_vertex_normals m) ;;
  success <- library_write output_path (write_triangle_mesh output_path m) ;;
  if negb success then raise (IOError ("Failed to save mesh to " ++ output_path)) else
  ret (Stats num_points (len_vertices m) (len_triangles m) elapsed radii avg_dist).

Definition json_to_ply (json_data : json) (output_path : string) : M unit :=
  data <- lift (load_data json_data) ;;
  points <- lift (py_get data "points" (JArr [])) ;;
  if negb (truthy points) then raise (ValueError "No points in JSON data") else
  items <- lift (py_iter points) ;;
  rows <- lift (mapM point_row items) ;;
  cloud <- lift (point_cloud_of (map fst rows) (map snd rows)) ;;
  library_write output_path (write_point_cloud output_path cloud) ;;;
  ret tt.

(** Lines 259-275 and 324-336: determine the input format and save the input. *)
Definition save_input (rq : request) (file_id : string) : M string :=
  if is_json rq
  then
    let input_path := upload_path file_id "ply" in
    json_data <- lift (get_json rq) ;;
    json_to_ply json_data input_path ;;;
    ret input_path
  else
    let input_ext := args_get rq "input_format" "ply" in
    let input_path := upload_path file_id input_ext in
    open_write input_path (data rq) ;;;
    ret input_path.

(** Lines 244-252: the parameters taken from the query string. *)
Definition query_params (rq : request) : res params :=
  let? radius_multiplier :=
    match args_lookup "radius_multiplier" (args rq) with
    | Some s => py_float s
    | None => Ok (3 # 2)%Q
    end in
  let? num_radii :=
    match args_lookup "num_radii" (args rq) with
    | Some s => py_int s
    | None => Ok 2
    end in
  Ok (Params (Some radius_multiplier) (Some num_radii) (Some true) None None).

Definition output_ext (rq : request) : string :=
  if String.eqb (args_get rq "format" "ply") "ply" then "ply" else "obj".

(** Lines 284-305: clean up the input file and answer with the mesh file. *)
Definition respond (file_id input_path out_path ext : string) (st : stats) : M response :=
  try_pass (os_remove input_path) ;;;
  response <- send_file out_path "application/octet-stream"
                        ("mesh_" ++ file_id ++ "." ++ ext) ;;
  let response := set_header response "X-Num-Vertices" (StrInt (num_vertices st)) in
  let response := set_header response "X-Num-Triangles" (StrInt (num_triangles st)) in
  let response := set_header response "X-Processing-Time" (StrFloat (processing_time st)) in
  ret response.

(** POST /mesh; [file_id] is [str(uuid.uuid4())]. *)
Definition create_mesh_body (rq : request) (file_id : string) : M response :=
  ps <- lift (query_params rq) ;;
  input_path <- save_input rq file_id ;;
  let ext := output_ext rq in
  let out_path := output_path file_id ext in
  st <- reconstruct_mesh_ball_pivoting input_path out_path ps ;;
  respond file_id input_path out_path ext st.

Definition create_mesh (rq : request) (file_id : string) : world -> response * world :=
  handler (create_mesh_body rq file_id).

(** POST /mesh/stats *)
Definition get_mesh_stats_body (rq : request) (file_id : string) : M response :=
  input_path <- save_input rq file_id ;;
  content <- read_file input_path ;;
  cloud <- lift (read_point_cloud input_path content) ;;
  avg_dist <- mean_distance cloud ;;
  try_pass (os_remove input_path) ;;;
  ret (Jsonify 200 (JObj [("num_points", JInt (len_points cloud));
                          ("avg_point_distance", JFloat avg_dist);
                          ("suggested_radius", JFloat (avg_dist * (3 # 2)));
                          ("has_normals", JBool (has_normals cloud));
                          ("has_colors", JBool (has_colors cloud))])).

Definition get_mesh_stats (rq : request) (file_id : string) : world -> response * world :=
  handler (get_mesh_stats_body rq file_id).

(** GET /health *)
Definition health_check : world -> response * world :=
  fun w => (Jsonify 200 (JObj [("status", JStr "ok");
                               ("service", JStr "Ball Pivoting Mesh Server");
                               ("version", JStr "1.0.0")]), w).

End Service.

(** Lines 34-35: the configuration; no function of the file reads it. *)
Definition MAX_FILE_SIZE : Z := 100 * 1024 * 1024.
Definition ALLOWED_FORMATS : list string := ["ply"; "pcd"; "json"].

End App.

(** ** app_trimesh_alternative.py: the trimesh service *)

Module AppTrimesh.

(** The part of trimesh, scipy and numpy the service calls.  [ndarray] stands
    for every numpy array (coordinates, colours, indices, matrices). *)
Class Trimesh := {
  ndarray : Type;
  cloud : Type;                                   (* what trimesh.load returns *)
  tmesh : Type;                                   (* trimesh.Trimesh *)
  kdtree : Type;
  np_array : list (list json) -> res ndarray;     (* np.array(rows) *)
  np_array_uint8 : list (list json) -> res ndarray; (* np.array(rows, dtype=np.uint8) *)
  np_stack : list ndarray -> res ndarray;         (* np.array(list of arrays) *)
  np_len : ndarray -> res Z;                      (* len(a) *)
  np_iter : ndarray -> res (list ndarray);        (* for row in a *)
  np_item : ndarray -> Z -> res ndarray;          (* a[i] *)
  np_take : ndarray -> ndarray -> res ndarray;    (* a[indices] *)
  np_first3 : ndarray -> res ndarray;             (* a[:, :3] *)
  np_full_128 : Z -> res ndarray;                 (* np.full((n, 3), 128, dtype=np.uint8) *)
  np_cov_T : ndarray -> res ndarray;              (* np.cov(a.T) *)
  np_linalg_eig : ndarray -> res (ndarray * ndarray);
  column_argmin : ndarray -> ndarray -> res ndarray; (* vectors[:, np.argmin(values)] *)
  origin_minus : ndarray -> res ndarray;          (* np.array([0, 0, 0]) - point *)
  dot_negative : ndarray -> ndarray -> res bool;  (* np.dot(a, b) < 0 *)
  np_neg : ndarray -> res ndarray;                (* -a *)
  second : ndarray -> res Q;                      (* d[1] *)
  trimesh_load : string -> option bytes -> res cloud;
  vertices_of : cloud -> res ndarray;             (* .vertices *)
  colors_of : cloud -> option ndarray;            (* .colors, when the attribute exists *)
  PointCloud : ndarray -> res unit;               (* trimesh.PointCloud(vertices=a) *)
  cKDTree : ndarray -> res kdtree;
  query : kdtree -> ndarray -> Z -> res (ndarray * ndarray);
  alpha_shape : ndarray -> Q -> res (option tmesh); (* None is a possible result *)
  convex_hull : ndarray -> res tmesh;
  mesh_vertices : tmesh -> ndarray;
  len_vertices : tmesh -> Z;
  len_faces : tmesh -> Z;
  set_vertex_colors : tmesh -> ndarray -> res tmesh;
  merge_vertices : tmesh -> res tmesh;
  remove_degenerate_faces : tmesh -> res tmesh;
  remove_unreferenced_vertices : tmesh -> res tmesh;
  fix_normals : tmesh -> res tmesh;
  export : string -> tmesh -> res bytes           (* mesh.export(path): the bytes written *)
}.

Record stats := Stats {
  num_input_points : Z;
  num_vertices : Z;
  num_triangles : Z;
  processing_time : Q;
  alpha_used : Q
}.

(** [s.lower()] on ASCII text *)
Definition lower_ascii (c : ascii) : ascii :=
  let n := nat_of_ascii c in
  if (65 <=? n)%nat && (n <=? 90)%nat then ascii_of_nat (n + 32) else c.

Fixpoint lower (s : string) : string :=
  match s with
  | EmptyString => EmptyString
  | String c rest => String (lower_ascii c) (lower rest)
  end.

(** [range(0, stop, step)] for a positive step *)
Definition range_step (stop step : Z) : list Z :=
  map (fun k => Z.of_nat k * step) (seq 0 (Z.to_nat ((stop + step - 1) / step))).

Definition ZeroDivisionError : exn := Exn "ZeroDivisionError" "integer division or modulo by zero".

(** [a // b] *)
Definition floordiv (a b : Z) : res Z :=
  if b =? 0 then Raise ZeroDivisionError else Ok (a / b).

Section Service.
Context {H : Host} {L : Trimesh}.

Definition json_to_numpy (json_data : json) : res (ndarray * ndarray) :=
  let? data := load_data json_data in
  let? points := py_get data "points" (JArr []) in
  if negb (truthy points) then Raise (ValueError "No points in JSON data") else
  let? items := py_iter points in
  let? rows := mapM (fun p => let? x := py_getitem p "x" in
                              let? y := py_getitem p "y" in
                              let? z := py_getitem p "z" in
                              Ok [x; y; z]) items in
  let? coords := np_array rows in
  let? rgb := mapM (fun p => let? r := py_get p "r" (JInt 128) in
                             let? g := py_get p "g" (JInt 128) in
                             let? b := py_get p "b" (JInt 128) in
                             Ok [r; g; b]) items in
  let? colors := np_array_uint8 rgb in
  Ok (coords, colors).

(** Lines 78-93: the normal of one point, by PCA over its neighbours. *)
Definition pca_normal (coords : ndarray) (tree : kdtree) (n : Z) (point : ndarray)
  : res ndarray :=
  let? found := query tree point (Z.min 20 n) in
  let? neighbors := np_take coords (snd found) in
  let? cov := np_cov_T neighbors in
  let? eig := np_linalg_eig cov in
  column_argmin (snd eig) (fst eig).

(** Lines 100-103: a normal that points away from the origin is flipped. *)
Definition orient (pn : ndarray * ndarray) : res ndarray :=
  let? view_dir := origin_minus (fst pn) in
  let? away := dot_negative (snd pn) view_dir in
  if away : bool then np_neg (snd pn) else Ok (snd pn).

(** Lines 68-105; [n] is [len(coords)]. *)
Definition compute_normals (coords : ndarray) (n : Z) : res (list ndarray) :=
  let? _ := PointCloud coords in
  let? tree := cKDTree coords in
  let? points := np_iter coords in
  let? normals := mapM (pca_normal coords tree n) points in
  let? normals := np_stack normals in
  let? rows := np_iter normals in
  mapM orient (combine points rows).

(** Lines 110-123: the alpha shape, and the convex hull when that fails. *)
Definition alpha_shape_or_hull (coords : ndarray) (alpha : Q) : M tmesh :=
  try_except
    (o <- library_call (AlphaShape alpha) (alpha_shape coords alpha) ;;
     match o with
     | Some m =>
         if len_faces m =? 0
         then raise (ValueError "Alpha shape failed, trying alternative method...")
         else ret m
     | None => raise (ValueError "Alpha shape failed, trying alternative method...")
     end)
    (fun _ => library_call ConvexHull (convex_hull coords)).

(** Lines 127-135 *)
Definition add_vertex_colors (coords colors : ndarray) (m : tmesh) : res tmesh :=
  let? n := np_len colors in
  if n =? len_vertices m
  then set_vertex_colors m colors
  else
    let? tree := cKDTree coords in
    let? found := query tree (mesh_vertices m) 1 in
    let? picked := np_take colors (snd found) in
    set_vertex_colors m picked.

Definition reconstruct_mesh_alpha_shape (coords colors : ndarray) (alpha : Q)
  : M (tmesh * stats) :=
  n <- lift (np_len coords) ;;
  start_time <- now ;;
  lift (compute_normals coords n) ;;;
  m <- alpha_shape_or_hull coords alpha ;;
  end_time <- now ;;
  let elapsed := (end_time - start_time)%Q in
  m <- lift (add_vertex_colors coords colors m) ;;
  m <- lift (merge_vertices m) ;;
  m <- lift (remove_degenerate_faces m) ;;
  m <- lift (remove_unreferenced_vertices m) ;;
  m <- lift (fix_normals m) ;;
  ret (m, Stats n (len_vertices m) (len_faces m) elapsed alpha).

(** Lines 190-194: [alpha], overridden by [radius_multiplier] when given. *)
Definition query_alpha (rq : request) : res Q :=
  let? alpha :=
    match args_lookup "alpha" (args rq) with
    | Some s => py_float s
    | None => Ok (5 # 100)%Q
    end in
  match args_lookup "radius_multiplier" (args rq) with
  | Some s => let? radius := py_float s in Ok (radius * (3 # 100))%Q
  | None => Ok alpha
  end.

(** Lines 211-221 and 269-275: save the body, load it, delete the file. *)
Definition load_binary (rq : request) (file_id : string) : M cloud :=
  let input_path := upload_path file_id "ply" in
  open_write input_path (data rq) ;;;
  content <- (fun w => (Ok (fs w !! input_path), w)) ;;
  lift (trimesh_load input_path content).

Definition create_mesh_input (rq : request) (file_id : string) : M (ndarray * ndarray) :=
  if is_json rq
  then
    json_data <- lift (get_json rq) ;;
    lift (json_to_numpy json_data)
  else
    point_cloud <- load_binary rq file_id ;;
    coords <- lift (vertices_of point_cloud) ;;
    colors <- lift (match colors_of point_cloud with
                    | Some c => np_first3 c
                    | None => let? n := np_len coords in np_full_128 n
                    end) ;;
    os_remove (upload_path file_id "ply") ;;;
    ret (coords, colors).

(** Lines 226-246: save the mesh and answer with the file. *)
Definition respond (file_id output_format : string) (m : tmesh) (st : stats) : M response :=
  let output_ext := lower output_format in
  let out_path := output_path file_id output_ext in
  exported <- lift (export out_path m) ;;
  store out_path exported ;;;
  response <- send_file out_path "application/octet-stream"
                        ("mesh_" ++ file_id ++ "." ++ output_ext) ;;
  let response := set_header response "X-Num-Vertices" (StrInt (num_vertices st)) in
  let response := set_header response "X-Num-Triangles" (StrInt (num_triangles st)) in
  let response := set_header response "X-Processing-Time" (StrFloat (processing_time st)) in
  ret response.

(** POST /mesh; [file_id] is [str(uuid.uuid4())]. *)
Definition create_mesh_body (rq : request) (file_id : string) : M response :=
  alpha <- lift (query_alpha rq) ;;
  let output_format := args_get rq "format" "ply" in
  input <- create_mesh_input rq file_id ;;
  result <- reconstruct_mesh_alpha_shape (fst input) (snd input) alpha ;;
  respond file_id output_format (fst result) (snd result).

Definition create_mesh (rq : request) (file_id : string) : world -> response * world :=
  handler (create_mesh_body rq file_id).

Definition get_mesh_stats_input (rq : request) (file_id : string) : M ndarray :=
  if is_json rq
  then
    json_data <- lift (get_json rq) ;;
    input <- lift (json_to_numpy json_data) ;;
    ret (fst input)
  else
    point_cloud <- load_binary rq file_id ;;
    coords <- lift (vertices_of point_cloud) ;;
    os_remove (upload_path file_id "ply") ;;;
    ret coords.

(** Lines 278-286: nearest-neighbour distances over a sample of the points. *)
Definition sample_distances (coords : ndarray) : res (list Q) :=
  let? tree := cKDTree coords in
  let? n := np_len coords in
  let sample_size := Z.min 100 n in
  let? q := floordiv n sample_size in
  mapM (fun i => let? point := np_item coords i in
                 let? found := query tree point 2 in
                 second (fst found))
       (range_step n (Z.max 1 q)).

(** POST /mesh/stats *)
Definition get_mesh_stats_body (rq : request) (file_id : string) : M response :=
  coords <- get_mesh_stats_input rq file_id ;;
  distances <- lift (sample_distances coords) ;;
  avg_dist <- lift (np_mean distances) ;;
  n <- lift (np_len coords) ;;
  ret (Jsonify 200 (JObj [("num_points", JInt n);
                          ("avg_point_distance", JFloat avg_dist);
                          ("suggested_alpha", JFloat (avg_dist * (3 # 2)));
                          ("has_colors", JBool true)])).

Definition get_mesh_stats (rq : request) (file_id : string) : world -> response * world :=
  handler (get_mesh_stats_body rq file_id).

(** GET /health *)
Definition health_check : world -> response * world :=
  fun w => (Jsonify 200
              (JObj [("status", JStr "ok");
                     ("service", JStr "Ball Pivoting Mesh Server (Trimesh Alternative)");
                     ("version", JStr "1.0.0-trimesh");
                     ("library", JStr "trimesh")]), w).

End Service.

(** Line 26: the configuration; no function of the file reads it. *)
Definition MAX_FILE_SIZE : Z := 100 * 1024 * 1024.

End AppTrimesh.

(** * Requests served one after another

    Every POST route starts with [file_id = str(uuid.uuid4())] (app.py lines
    241 and 322, app_trimesh_alternative.py lines 187 and 262): each request
    makes one call of [uuid.uuid4] of its own, and names its files by the
    result.  [uuid4 n] is the text the library hands out at its call number
    n, and the server counts the calls made so far. *)

Class Uuid := {
  uuid4 : nat -> string                  (* str(uuid.uuid4()) at call number n *)
}.

Inductive route : Type :=
  | Open3dMesh        (* POST /mesh of app.py *)
  | Open3dStats       (* POST /mesh/stats of app.py *)
  | TrimeshMesh       (* POST /mesh of app_trimesh_alternative.py *)
  | TrimeshStats.     (* POST /mesh/stats of app_trimesh_alternative.py *)

Record server : Type := Server {
  state : world;
  drawn : nat                            (* calls of uuid.uuid4() so far *)
}.

Section Server.
Context {H : Host} {O : App.Open3D} {T : AppTrimesh.Trimesh} {U : Uuid}.

Definition route_function (rt : route) : request -> string -> world -> response * world :=
  match rt with
  | Open3dMesh => App.create_mesh
  | Open3dStats => App.get_mesh_stats
  | TrimeshMesh => AppTrimesh.create_mesh
  | TrimeshStats => AppTrimesh.get_mesh_stats
  end.

(** One request: the identifier is drawn, then the route function runs. *)
Definition serve (rt : route) (rq : request) (s : server) : response * server :=
  let file_id := uuid4 (drawn s) in
  let (resp, w') := route_function rt rq file_id (state s) in
  (resp, Server w' (S (drawn s))).

Fixpoint serve_all (reqs : list (route * request)) (s : server) : list response * server :=
  match reqs with
  | [] => ([], s)
  | (rt, rq) :: rest =>
      let (resp, s1) := serve rt rq s in
      let (resps, s2) := serve_all rest s1 in
      (resp :: resps, s2)
  end.

End Server.

(** ** Small implementations of the interfaces, to run the handlers *)

Module Example.

Definition table_lookup {A} (key : string) (t : list (string * A)) : option A :=
  snd <$> find (fun kv => String.eqb (fst kv) key) t.

Definition sum (l : list Q) : Q := fold_right Qplus 0%Q l.

#[local] Instance host : Host := {|
  py_float s :=
    match table_lookup s [("0", 0 # 1); ("0.001", 1 # 1000); ("0.05", 5 # 100); ("0.1", 1 # 10);
                          ("1.5", 3 # 2); ("2", 2 # 1)]%Q with
    | Some q => Ok q
    | None => Raise (ValueError ("could not convert string to float: '" ++ s ++ "'"))
    end;
  py_int s :=
    match table_lookup s [("-1", -1); ("0", 0); ("1", 1); ("2", 2); ("3", 3)] with
    | Some z => Ok z
    | None => Raise (ValueError ("invalid literal for int() with base 10: '" ++ s ++ "'"))
    end;
  json_loads _ := Raise (Exn "JSONDecodeError" "Expecting value: line 1 column 1 (char 0)");
  np_mean l := Ok (sum l / inject_Z (Z.of_nat (length l)))%Q;
  clock n := inject_Z (Z.of_nat n);
  open_error _ := None;
  remove_error _ := None
|}.

(** A point cloud file holds one point per byte; a cloud is its number of
    points and whether it has normals; a mesh is its numbers of vertices and
    of triangles.  Fewer than three points give a mesh without triangles. *)
#[local] Instance open3d : App.Open3D := {|
  App.pcd := Z * bool;
  App.mesh := Z * Z;
  App.read_point_cloud _ content :=
    Ok (Z.of_nat (length (default [] content)), false);
  App.has_points c := 0 <? fst c;
  App.len_points c := fst c;
  App.has_normals c := snd c;
  App.has_colors _ := true;
  App.compute_nearest_neighbor_distance c := Ok (repeat (1 # 10)%Q (Z.to_nat (fst c)));
  App.estimate_normals c _ _ := Ok (fst c, true);
  App.orient_normals_consistent_tangent_plane c _ := Ok c;
  App.create_from_point_cloud_ball_pivoting c _ :=
    Ok (fst c, if fst c <? 3 then 0 else fst c - 2);
  App.has_triangles m := 0 <? snd m;
  App.len_vertices m := fst m;
  App.len_triangles m := snd m;
  App.remove_duplicated_vertices m := Ok m;
  App.remove_duplicated_triangles m := Ok m;
  App.remove_degenerate_triangles m := Ok m;
  App.remove_unreferenced_vertices m := Ok m;
  App.compute_vertex_normals m := Ok m;
  App.write_triangle_mesh _ m := Ok (Some (repeat "m"%byte (Z.to_nat (fst m))));
  App.point_cloud_of coords _ := Ok (Z.of_nat (length coords), false);
  App.write_point_cloud _ c := Ok (Some (repeat "p"%byte (Z.to_nat (fst c))))
|}.

Fixpoint ends_with (suffix s : string) : bool :=
  String.eqb suffix s
  || match s with
     | EmptyString => false
     | String _ rest => ends_with suffix rest
     end.

(** An array is its list of rows; a loaded file has one vertex per byte and no
    colours; a mesh is its numbers of vertices and of faces.  The alpha shape
    is refused for [alpha <= 0] and has no faces for [alpha <= 0.01]; only
    ply, obj and stl can be exported. *)
#[local] Instance trimesh : AppTrimesh.Trimesh := {|
  AppTrimesh.ndarray := list (list json);
  AppTrimesh.cloud := list (list json);
  AppTrimesh.tmesh := Z * Z;
  AppTrimesh.kdtree := unit;
  AppTrimesh.np_array rows := Ok rows;
  AppTrimesh.np_array_uint8 rows := Ok rows;
  AppTrimesh.np_stack l := Ok (concat l);
  AppTrimesh.np_len a := Ok (Z.of_nat (length a));
  AppTrimesh.np_iter a := Ok (map (fun row => [row]) a);
  AppTrimesh.np_item a i := Ok (firstn 1 (skipn (Z.to_nat i) a));
  AppTrimesh.np_take a _ := Ok a;
  AppTrimesh.np_first3 a := Ok a;
  AppTrimesh.np_full_128 n := Ok (repeat [JInt 128; JInt 128; JInt 128] (Z.to_nat n));
  AppTrimesh.np_cov_T a := Ok a;
  AppTrimesh.np_linalg_eig a := Ok (a, a);
  AppTrimesh.column_argmin vectors _ := Ok vectors;
  AppTrimesh.origin_minus a := Ok a;
  AppTrimesh.dot_negative _ _ := Ok false;
  AppTrimesh.np_neg a := Ok a;
  AppTrimesh.second _ := Ok (1 # 10)%Q;
  AppTrimesh.trimesh_load path content :=
    match content with
    | Some b => Ok (map (fun _ => [JInt 0; JInt 0; JInt 0]) b)
    | None => Raise (FileNotFoundError path)
    end;
  AppTrimesh.vertices_of c := Ok c;
  AppTrimesh.colors_of _ := None;
  AppTrimesh.PointCloud _ := Ok tt;
  AppTrimesh.cKDTree _ := Ok tt;
  AppTrimesh.query _ point _ := Ok (point, point);
  AppTrimesh.alpha_shape coords alpha :=
    let n := Z.of_nat (length coords) in
    if Qle_bool alpha 0
    then Raise (ValueError "alpha must be positive")
    else Ok (Some (n, if Qle_bool alpha (1 # 100) then 0 else n - 2));
  AppTrimesh.convex_hull coords :=
    let n := Z.of_nat (length coords) in Ok (n, 2 * n - 4);
  AppTrimesh.mesh_vertices _ := [];
  AppTrimesh.len_vertices m := fst m;
  AppTrimesh.len_faces m := snd m;
  AppTrimesh.set_vertex_colors m _ := Ok m;
  AppTrimesh.merge_vertices m := Ok m;
  AppTrimesh.remove_degenerate_faces m := Ok m;
  AppTrimesh.remove_unreferenced_vertices m := Ok m;
  AppTrimesh.fix_normals m := Ok m;
  AppTrimesh.export path m :=
    if ends_with ".ply" path || ends_with ".obj" path || ends_with ".stl" path
    then Ok (repeat "m"%byte (Z.to_nat (fst m)))
    else Raise (ValueError "mesh exporter not available")
|}.

Definition empty_world : world := World ∅ [] [] 0.

Definition file_id : string := "1b4e28ba-2fa1-41d2-883f-0016d3cca427".
Definition other_id : string := "6fa459ea-ee8a-4ca4-894e-db77e160355e".

(** A source of identifiers that hands out [file_id] first and [other_id]
    from then on, and one that hands out [file_id] every time. *)
#[local] Instance two_uuids : Uuid := {|
  uuid4 n := match n with O => file_id | _ => other_id end
|}.

Definition repeating_uuids : Uuid := {| uuid4 _ := file_id |}.

Definition point (x y z : Z) : json := JObj [("x", JInt x); ("y", JInt y); ("z", JInt z)].

Definition four_points : json :=
  JObj [("points", JArr [point 0 0 0; point 1 0 0; point 0 1 0; point 0 0 1])].

Definition json_request (query : list (string * string)) (body : json) : request :=
  Request query (Some "application/json") [] (Ok body).

Definition not_json : res json :=
  Raise (Exn "UnsupportedMediaType" "415 Unsupported Media Type").

Definition binary_request (query : list (string * string)) (body : bytes) : request :=
  Request query (Some "application/octet-stream") body not_json.

(** The same host on which no file can be removed. *)
#[local] Instance locked_host : Host := {|
  py_float := @py_float host;
  py_int := @py_int host;
  json_loads := @json_loads host;
  np_mean := @np_mean host;
  clock := @clock host;
  open_error := @open_error host;
  remove_error _ := Some (Exn "PermissionError" "[Errno 13] Permission denied")
|}.

(** The same library, except that an empty file cannot be loaded. *)
#[local] Instance strict_trimesh : AppTrimesh.Trimesh := {|
  AppTrimesh.ndarray := @AppTrimesh.ndarray trimesh;
  AppTrimesh.cloud := @AppTrimesh.cloud trimesh;
  AppTrimesh.tmesh := @AppTrimesh.tmesh trimesh;
  AppTrimesh.kdtree := @AppTrimesh.kdtree trimesh;
  AppTrimesh.np_array := @AppTrimesh.np_array trimesh;
  AppTrimesh.np_array_uint8 := @AppTrimesh.np_array_uint8 trimesh;
  AppTrimesh.np_stack := @AppTrimesh.np_stack trimesh;
  AppTrimesh.np_len := @AppTrimesh.np_len trimesh;
  AppTrimesh.np_iter := @AppTrimesh.np_iter trimesh;
  AppTrimesh.np_item := @AppTrimesh.np_item trimesh;
  AppTrimesh.np_take := @AppTrimesh.np_take trimesh;
  AppTrimesh.np_first3 := @AppTrimesh.np_first3 trimesh;
  AppTrimesh.np_full_128 := @AppTrimesh.np_full_128 trimesh;
  AppTrimesh.np_cov_T := @AppTrimesh.np_cov_T trimesh;
  AppTrimesh.np_linalg_eig := @AppTrimesh.np_linalg_eig trimesh;
  AppTrimesh.column_argmin := @AppTrimesh.column_argmin trimesh;
  AppTrimesh.origin_minus := @AppTrimesh.origin_minus trimesh;
  AppTrimesh.dot_negative := @AppTrimesh.dot_negative trimesh;
  AppTrimesh.np_neg := @AppTrimesh.np_neg trimesh;
  AppTrimesh.second := @AppTrimesh.second trimesh;
  AppTrimesh.trimesh_load path content :=
    match content with
    | Some (b :: rest) => Ok (map (fun _ => [JInt 0; JInt 0; JInt 0]) (b :: rest))
    | Some [] => Raise (ValueError "File is empty")
    | None => Raise (FileNotFoundError path)
    end;
  AppTrimesh.vertices_of := @AppTrimesh.vertices_of trimesh;
  AppTrimesh.colors_of := @AppTrimesh.colors_of trimesh;
  AppTrimesh.PointCloud := @AppTrimesh.PointCloud trimesh;
  AppTrimesh.cKDTree := @AppTrimesh.cKDTree trimesh;
  AppTrimesh.query := @AppTrimesh.query trimesh;
  AppTrimesh.alpha_shape := @AppTrimesh.alpha_shape trimesh;
  AppTrimesh.convex_hull := @AppTrimesh.convex_hull trimesh;
  AppTrimesh.mesh_vertices := @AppTrimesh.mesh_vertices trimesh;
  AppTrimesh.len_vertices := @AppTrimesh.len_vertices trimesh;
  AppTrimesh.len_faces := @AppTrimesh.len_faces trimesh;
  AppTrimesh.set_vertex_colors := @AppTrimesh.set_vertex_colors trimesh;
  AppTrimesh.merge_vertices := @AppTrimesh.merge_vertices trimesh;
  AppTrimesh.remove_degenerate_faces := @AppTrimesh.remove_degenerate_faces trimesh;
  AppTrimesh.remove_unreferenced_vertices := @AppTrimesh.remove_unreferenced_vertices trimesh;
  AppTrimesh.fix_normals := @AppTrimesh.fix_normals trimesh;
  AppTrimesh.export := @AppTrimesh.export trimesh
|}.

(** The same library, except that the eigen-decomposition needs at least two
    rows. *)
#[local] Instance degenerate_trimesh : AppTrimesh.Trimesh := {|
  AppTrimesh.ndarray := @AppTrimesh.ndarray trimesh;
  AppTrimesh.cloud := @AppTrimesh.cloud trimesh;
  AppTrimesh.tmesh := @AppTrimesh.tmesh trimesh;
  AppTrimesh.kdtree := @AppTrimesh.kdtree trimesh;
  AppTrimesh.np_array := @AppTrimesh.np_array trimesh;
  AppTrimesh.np_array_uint8 := @AppTrimesh.np_array_uint8 trimesh;
  AppTrimesh.np_stack := @AppTrimesh.np_stack trimesh;
  AppTrimesh.np_len := @AppTrimesh.np_len trimesh;
  AppTrimesh.np_iter := @AppTrimesh.np_iter trimesh;
  AppTrimesh.np_item := @AppTrimesh.np_item trimesh;
  AppTrimesh.np_take := @AppTrimesh.np_take trimesh;
  AppTrimesh.np_first3 := @AppTrimesh.np_first3 trimesh;
  AppTrimesh.np_full_128 := @AppTrimesh.np_full_128 trimesh;
  AppTrimesh.np_cov_T := @AppTrimesh.np_cov_T trimesh;
  AppTrimesh.np_linalg_eig a :=
    match a with
    | _ :: _ :: _ => Ok (a, a)
    | _ => Raise (Exn "LinAlgError" "Array must be at least two-dimensional")
    end;
  AppTrimesh.column_argmin := @AppTrimesh.column_argmin trimesh;
  AppTrimesh.origin_minus := @AppTrimesh.origin_minus trimesh;
  AppTrimesh.dot_negative := @AppTrimesh.dot_negative trimesh;
  AppTrimesh.np_neg := @AppTrimesh.np_neg trimesh;
  AppTrimesh.second := @AppTrimesh.second trimesh;
  AppTrimesh.trimesh_load := @AppTrimesh.trimesh_load trimesh;
  AppTrimesh.vertices_of := @AppTrimesh.vertices_of trimesh;
  AppTrimesh.colors_of := @AppTrimesh.colors_of trimesh;
  AppTrimesh.PointCloud := @AppTrimesh.PointCloud trimesh;
  AppTrimesh.cKDTree := @AppTrimesh.cKDTree trimesh;
  AppTrimesh.query := @AppTrimesh.query trimesh;
  AppTrimesh.alpha_shape := @AppTrimesh.alpha_shape trimesh;
  AppTrimesh.convex_hull := @AppTrimesh.convex_hull trimesh;
  AppTrimesh.mesh_vertices := @AppTrimesh.mesh_vertices trimesh;
  AppTrimesh.len_vertices := @AppTrimesh.len_vertices trimesh;
  AppTrimesh.len_faces := @AppTrimesh.len_faces trimesh;
  AppTrimesh.set_vertex_colors := @AppTrimesh.set_vertex_colors trimesh;
  AppTrimesh.merge_vertices := @AppTrimesh.merge_vertices trimesh;
  AppTrimesh.remove_degenerate_faces := @AppTrimesh.remove_degenerate_faces trimesh;
  AppTrimesh.remove_unreferenced_vertices := @AppTrimesh.remove_unreferenced_vertices trimesh;
  AppTrimesh.fix_normals := @AppTrimesh.fix_normals trimesh;
  AppTrimesh.export := @AppTrimesh.export trimesh
|}.

(** The same library, except that normals need at least three points. *)
#[local] Instance sparse_open3d : App.Open3D := {|
  App.pcd := @App.pcd open3d;
  App.mesh := @App.mesh open3d;
  App.read_point_cloud := @App.read_point_cloud open3d;
  App.has_points := @App.has_points open3d;
  App.len_points := @App.len_points open3d;
  App.has_normals := @App.has_normals open3d;
  App.has_colors := @App.has_colors open3d;
  App.compute_nearest_neighbor_distance := @App.compute_nearest_neighbor_distance open3d;
  App.estimate_normals c _ _ :=
    if fst c <? 3
    then Raise (Exn "RuntimeError" "not enough points to estimate normals")
    else Ok (fst c, true);
  App.orient_normals_consistent_tangent_plane := @App.orient_normals_consistent_tangent_plane open3d;
  App.create_from_point_cloud_ball_pivoting := @App.create_from_point_cloud_ball_pivoting open3d;
  App.has_triangles := @App.has_triangles open3d;
  App.len_vertices := @App.len_vertices open3d;
  App.len_triangles := @App.len_triangles open3d;
  App.remove_duplicated_vertices := @App.remove_duplicated_vertices open3d;
  App.remove_duplicated_triangles := @App.remove_duplicated_triangles open3d;
  App.remove_degenerate_triangles := @App.remove_degenerate_triangles open3d;
  App.remove_unreferenced_vertices := @App.remove_unreferenced_vertices open3d;
  App.compute_vertex_normals := @App.compute_vertex_normals open3d;
  App.write_triangle_mesh := @App.write_triangle_mesh open3d;
  App.point_cloud_of := @App.point_cloud_of open3d;
  App.write_point_cloud := @App.write_point_cloud open3d
|}.

Definition point_without_x : json := JObj [("y", JInt 0); ("z", JInt 0)].

End Example.

(** * Proofs *)

(** Running a computation of [M] in a hypothesis: unfold the operations of
    the monad, then split on every outcome that is tested. *)
Ltac unfold_monad :=
  unfold open_write, os_remove, send_file, handler, try_pass, try_except, now,
    library_call, store, bind, lift, ret, raise in *.

Ltac run_step :=
  match goal with
  | E : (_, _) = (_, _) |- _ => inversion E; clear E; subst
  | E : context [match ?x with _ => _ end] |- _ => destruct x eqn:?
  | E : context [if ?x then _ else _] |- _ => destruct x eqn:?
  end.

Ltac run := unfold_monad; repeat run_step; simpl in *.

(** ** Computing through [bind] *)

Section MonadFacts.

Lemma bind_ok {A B} (m : M A) (k : A -> M B) w a w1 :
  m w = (Ok a, w1) -> bind m k w = k a w1.
Proof. unfold bind. now intros ->. Qed.

Lemma bind_raise {A B} (m : M A) (k : A -> M B) w e w1 :
  m w = (Raise e, w1) -> bind m k w = (Raise e, w1).
Proof. unfold bind. now intros ->. Qed.

End MonadFacts.

(** ** Paths *)

Section PathFacts.

Lemma upload_not_output id1 e1 id2 e2 : upload_path id1 e1 <> output_path id2 e2.
Proof. unfold upload_path, output_path. simpl. discriminate. Qed.









End PathFacts.

(** ** The radii of the pivoting ball *)

Section RadiiFacts.





End RadiiFacts.

(** ** The stages of the Open3D service *)

Module AppFacts.
Import App.
Section O3DFacts.
Context {H : Host} {L : Open3D}.

Lemma ball_pivoting_effect input output ps w r w' :
  reconstruct_mesh_ball_pivoting input output ps w = (r, w') ->
  (exists l, calls w' = (calls w ++ l)%list
     /\ (l = [] \/
         exists avg o,
           l = [(BallPivoting (ball_radii avg (default (3 # 2)%Q (radius_multiplier ps))
                                          (default 2 (num_radii ps))), o)]
           /\ forall e, o = Some e -> r = Raise e))
  /\ match r with
     | Ok st =>
         exists m body,
           write_triangle_mesh output m = Ok (Some body)
           /\ fs w' = <[output := body]> (fs w)
           /\ written w' = (written w ++ [output])%list
           /\ num_vertices st = len_vertices m
           /\ num_triangles st = len_triangles m
           /\ processing_time st = (clock (S (ticks w)) - clock (ticks w))%Q
     | Raise _ => fs w' = fs w /\ written w' = written w
     end.
Proof.
  unfold reconstruct_mesh_ball_pivoting, mean_distance, library_write, read_file.
  intros E. run; try discriminate.
  all: split;
    [ eexists; split;
      [ first [ symmetry; apply app_nil_r | reflexivity ]
      | first [ left; reflexivity
              | right; do 2 eexists; split; [reflexivity |];
                simpl; intros ? [=]; congruence ] ]
    | first [ split; reflexivity
            | do 2 eexists; repeat split; eauto ] ].
Qed.


Lemma json_to_ply_effect json_data path w r w' :
  json_to_ply json_data path w = (r, w') ->
  calls w' = calls w /\ ticks w' = ticks w
  /\ ((fs w' = fs w /\ written w' = written w)
      \/ (r = Ok tt /\ exists body, fs w' = <[path := body]> (fs w)
                                   /\ written w' = (written w ++ [path])%list)).
Proof.
  unfold json_to_ply, library_write. intros E. run; try discriminate.
  all: repeat split; try reflexivity; eauto.
Qed.

Lemma save_binary rq file_id w :
  is_json rq = false ->
  let path := upload_path file_id (args_get rq "input_format" "ply") in
  open_error path = None ->
  save_input rq file_id w
  = (Ok path, World (<[path := data rq]> (fs w)) (written w ++ [path]) (calls w) (ticks w)).
Proof.
  intros Hj path Ho. unfold save_input. rewrite Hj. fold path.
  unfold open_write. rewrite Ho. reflexivity.
Qed.

Lemma save_input_effect rq file_id w r w' :
  save_input rq file_id w = (r, w') ->
  calls w' = calls w /\ ticks w' = ticks w
  /\ exists ext,
       (forall input_path, r = Ok input_path -> input_path = upload_path file_id ext)
       /\ ((fs w' = fs w /\ written w' = written w)
           \/ exists body, fs w' = <[upload_path file_id ext := body]> (fs w)
                           /\ written w' = (written w ++ [upload_path file_id ext])%list).
Proof.
  unfold save_input. destruct (is_json rq).
  - unfold bind at 1, lift. destruct (get_json rq) as [j | e].
    + unfold bind, ret.
      destruct (json_to_ply j (upload_path file_id "ply") w) as [[[] | e] w1] eqn:E;
        intros [= <- <-];
        destruct (json_to_ply_effect _ _ _ _ _ E) as (Hc & Ht & Hfs);
        (split; [exact Hc | split; [exact Ht |]]);
        exists "ply"; (split; [congruence |]);
        (destruct Hfs as [Hfs | (_ & Hfs)]; [left; exact Hfs | right; exact Hfs]).
    + intros [= <- <-]. repeat split. exists "ply". split; [congruence | left; auto].
  - intros E. run.
    all: repeat split; exists (args_get rq "input_format" "ply");
      (split; [intros ? [=]; try reflexivity |]); eauto.
Qed.

Lemma o3d_respond_effect file_id input_path out_path ext st w r w' :
  respond file_id input_path out_path ext st w = (r, w') ->
  calls w' = calls w /\ written w' = written w.
Proof. unfold respond. intros E. run; auto. Qed.

Lemma o3d_respond_ok file_id input_path out_path ext st w body :
  input_path <> out_path ->
  fs w !! out_path = Some body ->
  exists w',
    respond file_id input_path out_path ext st w
    = (Ok (SendFile body "application/octet-stream" ("mesh_" ++ file_id ++ "." ++ ext)
                    [("X-Num-Vertices", StrInt (num_vertices st));
                     ("X-Num-Triangles", StrInt (num_triangles st));
                     ("X-Processing-Time", StrFloat (processing_time st))]), w')
    /\ fs w' !! out_path = Some body.
Proof.
  intros Hne Hb. unfold respond. unfold_monad.
  destruct (fs w !! input_path) eqn:Ei; [destruct (remove_error input_path) |]; simpl.
  - rewrite Hb. eauto.
  - rewrite lookup_delete_ne by exact Hne. rewrite Hb. simpl.
    eexists. split; [reflexivity |]. simpl. now rewrite lookup_delete_ne.
  - rewrite Hb. eauto.
Qed.

(** How a run of the handler decomposes into its stages. *)
Lemma o3d_create_mesh_stages rq file_id w resp w' :
  create_mesh rq file_id w = (resp, w') ->
  (exists e, query_params rq = Raise e /\ resp = error_response e /\ w' = w)
  \/ exists ps,
       query_params rq = Ok ps
       /\ ((exists e, save_input rq file_id w = (Raise e, w') /\ resp = error_response e)
           \/ exists input_path w1,
                save_input rq file_id w = (Ok input_path, w1)
                /\ ((exists e, reconstruct_mesh_ball_pivoting
                                 input_path (output_path file_id (output_ext rq)) ps w1
                               = (Raise e, w')
                               /\ resp = error_response e)
                    \/ exists st w2 r,
                         reconstruct_mesh_ball_pivoting
                           input_path (output_path file_id (output_ext rq)) ps w1
                         = (Ok st, w2)
                         /\ respond file_id input_path (output_path file_id (output_ext rq))
                                    (output_ext rq) st w2 = (r, w')
                         /\ resp = match r with
                                   | Ok x => x
                                   | Raise e => error_response e
                                   end)).
Proof.
  unfold create_mesh, create_mesh_body, handler, bind, lift. intros E.
  destruct (query_params rq) as [ps | e]; [| injection E as <- <-; left; eauto].
  right. exists ps. split; [reflexivity |].
  destruct (save_input rq file_id w) as [[input_path | e] w1];
    [| injection E as <- <-; left; eauto].
  right. exists input_path, w1. split; [reflexivity |].
  destruct (reconstruct_mesh_ball_pivoting _ _ ps w1) as [[st | e] w2];
    [| injection E as <- <-; left; eauto].
  right.
  destruct (respond _ _ _ _ st w2) as [r w3] eqn:Er.
  exists st, w2, r. destruct r; injection E as <- <-; auto.
Qed.

End O3DFacts.
End AppFacts.

(** ** The stages of the trimesh service *)

Module AppTrimeshFacts.
Import AppTrimesh.
Section TrimeshFacts.
Context {H : Host} {L : Trimesh}.

Lemma alpha_shape_or_hull_effect coords alpha w r w' :
  alpha_shape_or_hull coords alpha w = (r, w') ->
  fs w' = fs w /\ written w' = written w /\ ticks w' = ticks w
  /\ ((calls w' = (calls w ++ [(AlphaShape alpha, None)])%list
       /\ exists m, r = Ok m /\ alpha_shape coords alpha = Ok (Some m) /\ len_faces m <> 0)
      \/ (calls w' = (calls w ++ [(AlphaShape alpha, raised (alpha_shape coords alpha));
                                  (ConvexHull, raised r)])%list
          /\ r = convex_hull coords
          /\ forall m, alpha_shape coords alpha = Ok (Some m) -> len_faces m = 0)).
Proof.
  unfold alpha_shape_or_hull. intros E. run.
  all: repeat split.
  all: first
    [ left; split; [reflexivity |]; eexists; repeat split; now apply Z.eqb_neq
    | right; rewrite <- app_assoc; simpl; repeat split;
      try match goal with E : alpha_shape _ _ = _ |- _ => rewrite E end;
      try reflexivity; intros ? [=]; subst; lia ].
Qed.

Lemma alpha_shape_effect coords colors alpha w r w' :
  reconstruct_mesh_alpha_shape coords colors alpha w = (r, w') ->
  fs w' = fs w /\ written w' = written w
  /\ (exists l, calls w' = (calls w ++ l)%list
        /\ (l = [] \/ l = [(AlphaShape alpha, None)]
            \/ exists o o', l = [(AlphaShape alpha, o); (ConvexHull, o')]
                            /\ forall e, o' = Some e -> r = Raise e))
  /\ match r with
     | Ok (m, st) =>
         num_vertices st = len_vertices m
         /\ num_triangles st = len_faces m
         /\ processing_time st = (clock (S (ticks w)) - clock (ticks w))%Q
     | Raise _ => True
     end.
Proof.
  unfold reconstruct_mesh_alpha_shape.
  unfold bind at 1, lift at 1. destruct (np_len coords) as [n | e];
    [| intros [= <- <-]; repeat split; exists []; split; [now rewrite app_nil_r | now left]].
  unfold bind at 1, now at 1.
  unfold bind at 1, lift at 1. destruct (compute_normals coords n) as [ns | e];
    [| intros [= <- <-]; repeat split; exists []; split; [now rewrite app_nil_r | now left]].
  unfold bind at 1.
  destruct (alpha_shape_or_hull coords alpha _) as [rm w1] eqn:Ea.
  apply alpha_shape_or_hull_effect in Ea. simpl in Ea.
  destruct Ea as (Hfs & Hwr & Htk & Hcalls).
  assert (Hlog : exists l, calls w1 = (calls w ++ l)%list
        /\ (l = [(AlphaShape alpha, None)] /\ (exists m, rm = Ok m)
            \/ exists o, l = [(AlphaShape alpha, o); (ConvexHull, raised rm)])).
  { destruct Hcalls as [(Hc & m & -> & _) | (Hc & _)]; eexists; (split; [exact Hc |]); eauto. }
  clear Hcalls. destruct Hlog as (l & Hc & Hl).
  destruct rm as [m | e].
  - intros E. run.
    all: rewrite Hfs, Hwr; repeat split; auto.
    all: try (exists l; split; [exact Hc |];
              destruct Hl as [(-> & _) | (o & ->)];
              [ right; left; reflexivity
              | right; right; exists o, None; split; [reflexivity | discriminate] ]).
    rewrite Htk. reflexivity.
  - intros [= <- <-]. rewrite Hfs, Hwr. repeat split.
    exists l. split; [exact Hc |].
    destruct Hl as [(_ & m & [=]) | (o & ->)].
    right; right. exists o, (Some e). split; [reflexivity |]. now intros ? [= ->].
Qed.

Lemma load_binary_effect rq file_id w r w' :
  load_binary rq file_id w = (r, w') ->
  calls w' = calls w /\ ticks w' = ticks w
  /\ ((fs w' = fs w /\ written w' = written w)
      \/ (fs w' = <[upload_path file_id "ply" := data rq]> (fs w)
          /\ written w' = (written w ++ [upload_path file_id "ply"])%list)).
Proof. unfold load_binary. intros E. run; auto. Qed.

Lemma create_mesh_input_effect rq file_id w r w' :
  create_mesh_input rq file_id w = (r, w') ->
  calls w' = calls w /\ ticks w' = ticks w
  /\ (written w' = written w
      \/ written w' = (written w ++ [upload_path file_id "ply"])%list).
Proof.
  unfold create_mesh_input. destruct (is_json rq).
  - intros E. run; auto.
  - unfold bind at 1. destruct (load_binary rq file_id w) as [[c | e] w1] eqn:El;
      apply load_binary_effect in El; destruct El as (Hc & Ht & Hw).
    + intros E. run.
      all: rewrite Hc, Ht; repeat split; destruct Hw as [[_ ->] | [_ ->]]; auto.
    + intros [= <- <-]. repeat split; auto. destruct Hw as [[_ ->] | [_ ->]]; auto.
Qed.

Lemma get_mesh_stats_input_effect rq file_id w r w' :
  get_mesh_stats_input rq file_id w = (r, w') ->
  calls w' = calls w
  /\ (written w' = written w
      \/ written w' = (written w ++ [upload_path file_id "ply"])%list).
Proof.
  unfold get_mesh_stats_input. destruct (is_json rq).
  - intros E. run; auto.
  - unfold bind at 1. destruct (load_binary rq file_id w) as [[c | e] w1] eqn:El;
      apply load_binary_effect in El; destruct El as (Hc & Ht & Hw).
    + intros E. run.
      all: rewrite Hc; repeat split; destruct Hw as [[_ ->] | [_ ->]]; auto.
    + intros [= <- <-]. repeat split; auto. destruct Hw as [[_ ->] | [_ ->]]; auto.
Qed.

Lemma tm_respond_effect file_id output_format m st w r w' :
  respond file_id output_format m st w = (r, w') ->
  calls w' = calls w
  /\ (written w' = written w
      \/ written w' = (written w ++ [output_path file_id (lower output_format)])%list).
Proof. unfold respond. intros E. run; auto. Qed.

Lemma tm_respond_ok file_id output_format m st w body :
  export (output_path file_id (lower output_format)) m = Ok body ->
  exists w',
    respond file_id output_format m st w
    = (Ok (SendFile body "application/octet-stream"
                    ("mesh_" ++ file_id ++ "." ++ lower output_format)
                    [("X-Num-Vertices", StrInt (num_vertices st));
                     ("X-Num-Triangles", StrInt (num_triangles st));
                     ("X-Processing-Time", StrFloat (processing_time st))]), w')
    /\ fs w' !! output_path file_id (lower output_format) = Some body.
Proof.
  intros He. unfold respond. unfold_monad. rewrite He. simpl.
  rewrite lookup_insert_eq. simpl. eexists. split; [reflexivity |].
  simpl. apply lookup_insert_eq.
Qed.

Lemma tm_create_mesh_stages rq file_id w resp w' :
  create_mesh rq file_id w = (resp, w') ->
  (exists e, query_alpha rq = Raise e /\ resp = error_response e /\ w' = w)
  \/ exists alpha,
       query_alpha rq = Ok alpha
       /\ ((exists e, create_mesh_input rq file_id w = (Raise e, w') /\ resp = error_response e)
           \/ exists input w1,
                create_mesh_input rq file_id w = (Ok input, w1)
                /\ ((exists e, reconstruct_mesh_alpha_shape (fst input) (snd input) alpha w1
                               = (Raise e, w')
                               /\ resp = error_response e)
                    \/ exists m st w2 r,
                         reconstruct_mesh_alpha_shape (fst input) (snd input) alpha w1
                         = (Ok (m, st), w2)
                         /\ respond file_id (args_get rq "format" "ply") m st w2 = (r, w')
                         /\ resp = match r with
                                   | Ok x => x
                                   | Raise e => error_response e
                                   end)).
Proof.
  unfold create_mesh, create_mesh_body, handler, bind, lift.
  destruct (query_alpha rq) as [alpha | e]; [| intros [= <- <-]; left; eauto].
  intros E. right. exists alpha. split; [reflexivity |].
  destruct (create_mesh_input rq file_id w) as [[input | e] w1];
    [| injection E as <- <-; left; eauto].
  right. exists input, w1. split; [reflexivity |].
  destruct (reconstruct_mesh_alpha_shape _ _ alpha w1) as [[[m st] | e] w2];
    [| injection E as <- <-; left; eauto].
  right. simpl in E.
  destruct (respond _ _ m st w2) as [r w3] eqn:Er.
  exists m, st, w2, r. destruct r; injection E as <- <-; auto.
Qed.

End TrimeshFacts.
End AppTrimeshFacts.

(** ** The handlers: files written and reconstruction calls made *)

Section Written.
Context {H : Host} {O : App.Open3D} {T : AppTrimesh.Trimesh}.

Lemma app_get_mesh_stats_stages rq file_id w resp w' :
  App.get_mesh_stats rq file_id w = (resp, w') ->
  exists r w1,
    App.save_input rq file_id w = (r, w1)
    /\ written w' = written w1 /\ calls w' = calls w1
    /\ forall e, r = Raise e -> resp = error_response e /\ w' = w1.
Proof.
  unfold App.get_mesh_stats, App.get_mesh_stats_body, handler. unfold bind at 1.
  destruct (App.save_input rq file_id w) as [[input_path | e] w1].
  - unfold App.mean_distance, App.read_file. intros E. exists (Ok input_path), w1.
    split; [reflexivity |]. run; repeat split; auto; discriminate.
  - intros [= <- <-]. exists (Raise e), w1. repeat split; congruence.
Qed.





End Written.

(** ** The paths of a sequence of requests *)

Section ServerFacts.
Context {H : Host} {O : App.Open3D} {T : AppTrimesh.Trimesh} {U : Uuid}.







End ServerFacts.
Section Calls.
Context {H : Host} {O : App.Open3D} {T : AppTrimesh.Trimesh}.



Lemma app_create_mesh_calls rq file_id w resp w' :
  App.create_mesh rq file_id w = (resp, w') ->
  exists l, calls w' = (calls w ++ l)%list
    /\ (l = [] \/
        exists ps avg o,
          App.query_params rq = Ok ps
          /\ l = [(BallPivoting
                     (App.ball_radii avg (default (3 # 2)%Q (App.radius_multiplier ps))
                                     (default 2 (App.num_radii ps))), o)]
          /\ forall e, o = Some e -> resp = error_response e).
Proof.
  intros E. apply AppFacts.o3d_create_mesh_stages in E.
  destruct E as [(e & _ & _ & ->) | (ps & Eq & [(e & Es & _) | (inp & w1 & Es & Er)])].
  - exists []. split; [now rewrite app_nil_r | now left].
  - apply AppFacts.save_input_effect in Es. destruct Es as (-> & _).
    exists []. split; [now rewrite app_nil_r | now left].
  - apply AppFacts.save_input_effect in Es. destruct Es as (<- & _).
    destruct Er as [(e & Er & ->) | (st & w2 & r & Er & Ep & _)];
      apply AppFacts.ball_pivoting_effect in Er; destruct Er as ((l & Hc & Hl) & _).
    + exists l. split; [exact Hc |].
      destruct Hl as [-> | (avg & o & -> & Ho)]; [now left | right].
      exists ps, avg, o. repeat split; auto. intros e' He'. apply Ho in He'. congruence.
    + apply AppFacts.o3d_respond_effect in Ep. destruct Ep as (-> & _).
      exists l. split; [exact Hc |].
      destruct Hl as [-> | (avg & o & -> & Ho)]; [now left | right].
      exists ps, avg, o. repeat split; auto. intros e' He'. apply Ho in He'. discriminate.
Qed.

Lemma trimesh_create_mesh_calls rq file_id w resp w' :
  AppTrimesh.create_mesh rq file_id w = (resp, w') ->
  exists l, calls w' = (calls w ++ l)%list
    /\ (l = [] \/
        exists alpha,
          AppTrimesh.query_alpha rq = Ok alpha
          /\ (l = [(AlphaShape alpha, None)]
              \/ exists o o',
                   l = [(AlphaShape alpha, o); (ConvexHull, o')]
                   /\ forall e, o' = Some e -> resp = error_response e)).
Proof.
  intros E. apply AppTrimeshFacts.tm_create_mesh_stages in E.
  destruct E as [(e & _ & _ & ->) | (a & Eq & [(e & Ei & _) | (inp & w1 & Ei & Er)])].
  - exists []. split; [now rewrite app_nil_r | now left].
  - apply AppTrimeshFacts.create_mesh_input_effect in Ei. destruct Ei as (-> & _).
    exists []. split; [now rewrite app_nil_r | now left].
  - apply AppTrimeshFacts.create_mesh_input_effect in Ei. destruct Ei as (<- & _).
    destruct Er as [(e & Er & ->) | (m & st & w2 & r & Er & Ep & _)];
      apply AppTrimeshFacts.alpha_shape_effect in Er;
      destruct Er as (_ & _ & (l & Hc & Hl) & _).
    + exists l. split; [exact Hc |].
      destruct Hl as [-> | [-> | (o & o' & -> & Ho)]]; [now left | right .. ].
      * exists a. split; [exact Eq | now left].
      * exists a. split; [exact Eq | right]. exists o, o'. split; [reflexivity |].
        intros e' He'. apply Ho in He'. congruence.
    + apply AppTrimeshFacts.tm_respond_effect in Ep. destruct Ep as (-> & _).
      exists l. split; [exact Hc |].
      destruct Hl as [-> | [-> | (o & o' & -> & Ho)]]; [now left | right .. ].
      * exists a. split; [exact Eq | now left].
      * exists a. split; [exact Eq | right]. exists o, o'. split; [reflexivity |].
        intros e' He'. apply Ho in He'. discriminate.
Qed.

End Calls.

(** ** Inputs that are rejected *)

Section EmptyCloud.
Context {H : Host} {O : App.Open3D}.

Lemma ball_pivoting_empty_cloud input_path out_path ps w cloud :
  App.read_point_cloud input_path (fs w !! input_path) = Ok cloud ->
  App.has_points cloud = false ->
  App.reconstruct_mesh_ball_pivoting input_path out_path ps w
  = (Raise (ValueError "Point cloud is empty!"), w).
Proof.
  intros Hread Hempty. unfold App.reconstruct_mesh_ball_pivoting.
  erewrite bind_ok by reflexivity.
  erewrite bind_ok by (unfold lift; rewrite Hread; reflexivity).
  rewrite Hempty. reflexivity.
Qed.

End EmptyCloud.

Section NoPoints.
Context {H : Host} {O : App.Open3D} {T : AppTrimesh.Trimesh}.

Lemma no_points_falsy items :
  dict_lookup "points" items = None \/ dict_lookup "points" items = Some JNull
  \/ dict_lookup "points" items = Some (JArr []) ->
  truthy (dict_get items "points" (JArr [])) = false.
Proof. unfold dict_get. intros [-> | [-> | ->]]; reflexivity. Qed.

Lemma json_to_ply_no_points json_data items path w :
  load_data json_data = Ok (JObj items) ->
  truthy (dict_get items "points" (JArr [])) = false ->
  App.json_to_ply json_data path w = (Raise (ValueError "No points in JSON data"), w).
Proof.
  intros Hd Hf. unfold App.json_to_ply.
  erewrite bind_ok by (unfold lift; rewrite Hd; reflexivity).
  erewrite bind_ok by reflexivity.
  rewrite Hf. reflexivity.
Qed.

Lemma json_to_numpy_no_points json_data items :
  load_data json_data = Ok (JObj items) ->
  truthy (dict_get items "points" (JArr [])) = false ->
  AppTrimesh.json_to_numpy json_data = Raise (ValueError "No points in JSON data").
Proof.
  intros Hd Hf. unfold AppTrimesh.json_to_numpy. rewrite Hd. cbn [rbind py_get].
  rewrite Hf. reflexivity.
Qed.

Lemma save_input_no_points rq file_id w json_data items :
  is_json rq = true -> get_json rq = Ok json_data ->
  load_data json_data = Ok (JObj items) ->
  truthy (dict_get items "points" (JArr [])) = false ->
  App.save_input rq file_id w = (Raise (ValueError "No points in JSON data"), w).
Proof.
  intros Hj Hg Hd Hf. unfold App.save_input. rewrite Hj.
  erewrite bind_ok by (unfold lift; rewrite Hg; reflexivity).
  erewrite bind_raise by (eapply json_to_ply_no_points; eassumption).
  reflexivity.
Qed.

Lemma create_mesh_input_no_points rq file_id w json_data items :
  is_json rq = true -> get_json rq = Ok json_data ->
  load_data json_data = Ok (JObj items) ->
  truthy (dict_get items "points" (JArr [])) = false ->
  AppTrimesh.create_mesh_input rq file_id w = (Raise (ValueError "No points in JSON data"), w).
Proof.
  intros Hj Hg Hd Hf. unfold AppTrimesh.create_mesh_input. rewrite Hj.
  erewrite bind_ok by (unfold lift; rewrite Hg; reflexivity).
  unfold lift. now rewrite (json_to_numpy_no_points json_data items).
Qed.

Lemma get_mesh_stats_input_no_points rq file_id w json_data items :
  is_json rq = true -> get_json rq = Ok json_data ->
  load_data json_data = Ok (JObj items) ->
  truthy (dict_get items "points" (JArr [])) = false ->
  AppTrimesh.get_mesh_stats_input rq file_id w
  = (Raise (ValueError "No points in JSON data"), w).
Proof.
  intros Hj Hg Hd Hf. unfold AppTrimesh.get_mesh_stats_input. rewrite Hj.
  erewrite bind_ok by (unfold lift; rewrite Hg; reflexivity).
  erewrite bind_raise; [reflexivity |].
  unfold lift. now rewrite (json_to_numpy_no_points json_data items).
Qed.

End NoPoints.

(** ** Colour channels *)

Section Channel.

Lemma normalize_channel_number items key v q :
  dict_get items key (JInt 128) = v ->
  as_number v = Some q ->
  App.normalize_channel (JObj items) key
  = if Qle_bool q 1 then Ok (dict_get items key (JFloat (1 # 2)))
    else if int_beyond_float v
         then Raise (OverflowError "int too large to convert to float")
         else Ok (JFloat (q / 255)).
Proof.
  intros Hv Hq. unfold App.normalize_channel, py_get. cbn [rbind].
  rewrite Hv. unfold py_gt_1, py_div_255. rewrite Hq. cbn [rbind].
  destruct (Qle_bool q 1); reflexivity.
Qed.

Lemma small_int_within_float z : (Z.abs z <= 255)%Z -> float_overflows z = false.
Proof.
  intros Hz. unfold float_overflows. apply Z.leb_gt.
  eapply Z.le_lt_trans; [exact Hz |]. reflexivity.
Qed.

Lemma Qle_bool_false q r : Qle_bool q r = false <-> (r < q)%Q.
Proof.
  destruct (Qle_bool q r) eqn:E.
  - apply Qle_bool_iff in E. split; [discriminate | intros Hlt; lra].
  - split; [intros _ | reflexivity].
    apply Qnot_le_lt. intros Hle. apply Qle_bool_iff in Hle. congruence.
Qed.

End Channel.

(** * The properties of the services *)

Section Claims.
Context {H : Host} {O : App.Open3D} {T : AppTrimesh.Trimesh} {U : Uuid}.

(** C1, as amended.  POST /mesh, when the reconstruction step returns: the
    Open3D service answers with the mesh file that
    [reconstruct_mesh_ball_pivoting] saved, and the three headers print the
    vertex and triangle counts of that mesh and the measured time; the trimesh
    service does the same whenever the export of the mesh to the requested
    format returns as well. *)
Theorem mesh_file_returned :
  (forall rq file_id w ps input_path w1 st w2,
      App.query_params rq = Ok ps ->
      App.save_input rq file_id w = (Ok input_path, w1) ->
      App.reconstruct_mesh_ball_pivoting
        input_path (output_path file_id (App.output_ext rq)) ps w1 = (Ok st, w2) ->
      exists m body w3,
        App.create_mesh rq file_id w
        = (SendFile body "application/octet-stream"
                    ("mesh_" ++ file_id ++ "." ++ App.output_ext rq)
                    [("X-Num-Vertices", StrInt (App.len_vertices m));
                     ("X-Num-Triangles", StrInt (App.len_triangles m));
                     ("X-Processing-Time",
                      StrFloat (clock (S (ticks w1)) - clock (ticks w1)))], w3)
        /\ App.write_triangle_mesh (output_path file_id (App.output_ext rq)) m
           = Ok (Some body)
        /\ fs w3 !! output_path file_id (App.output_ext rq) = Some body)
  /\ (forall rq file_id w alpha input w1 m st w2 body,
        AppTrimesh.query_alpha rq = Ok alpha ->
        AppTrimesh.create_mesh_input rq file_id w = (Ok input, w1) ->
        AppTrimesh.reconstruct_mesh_alpha_shape (fst input) (snd input) alpha w1
        = (Ok (m, st), w2) ->
        AppTrimesh.export
          (output_path file_id (AppTrimesh.lower (args_get rq "format" "ply"))) m
        = Ok body ->
        exists w3,
          AppTrimesh.create_mesh rq file_id w
          = (SendFile body "application/octet-stream"
                      ("mesh_" ++ file_id ++ "."
                               ++ AppTrimesh.lower (args_get rq "format" "ply"))
                      [("X-Num-Vertices", StrInt (AppTrimesh.len_vertices m));
                       ("X-Num-Triangles", StrInt (AppTrimesh.len_faces m));
                       ("X-Processing-Time",
                        StrFloat (clock (S (ticks w1)) - clock (ticks w1)))], w3)
          /\ fs w3 !! output_path file_id (AppTrimesh.lower (args_get rq "format" "ply"))
             = Some body).
Proof.
  split.
  - intros rq file_id w ps input_path w1 st w2 Hq Hs Hr.
    destruct (AppFacts.ball_pivoting_effect _ _ _ _ _ _ Hr)
      as (_ & m & body & Hm & Hfs & _ & Hv & Ht & Hp).
    destruct (AppFacts.save_input_effect _ _ _ _ _ Hs) as (_ & _ & ext & Hin & _).
    specialize (Hin _ eq_refl). subst input_path.
    destruct (AppFacts.o3d_respond_ok file_id (upload_path file_id ext)
                (output_path file_id (App.output_ext rq)) (App.output_ext rq) st w2 body)
      as (w3 & Hresp & Hbody).
    { apply upload_not_output. }
    { rewrite Hfs. apply lookup_insert_eq. }
    exists m, body, w3. split; [| split; assumption].
    unfold App.create_mesh, App.create_mesh_body, handler, bind, lift.
    rewrite Hq, Hs, Hr, Hresp, Hv, Ht, Hp. reflexivity.
  - intros rq file_id w alpha input w1 m st w2 body Hq Hi Hr He.
    destruct (AppTrimeshFacts.alpha_shape_effect _ _ _ _ _ _ Hr)
      as (_ & _ & _ & Hv & Ht & Hp).
    destruct (AppTrimeshFacts.tm_respond_ok file_id (args_get rq "format" "ply") m st w2 body He)
      as (w3 & Hresp & Hbody).
    exists w3. split; [| assumption].
    unfold AppTrimesh.create_mesh, AppTrimesh.create_mesh_body, handler, bind, lift.
    rewrite Hq, Hi, Hr. simpl. rewrite Hresp, Hv, Ht, Hp. reflexivity.
Qed.


(** C3 fails on the code.  A binary upload that Open3D reads as a cloud
    without points is written to the uploads directory, the reconstruction
    raises before the clean-up, and the file is still there when the error
    response is returned. *)
Theorem upload_kept_when_reconstruction_fails :
  forall rq file_id w ps cloud,
    is_json rq = false ->
    open_error (upload_path file_id (args_get rq "input_format" "ply")) = None ->
    App.query_params rq = Ok ps ->
    App.read_point_cloud (upload_path file_id (args_get rq "input_format" "ply"))
                         (Some (data rq)) = Ok cloud ->
    App.has_points cloud = false ->
    fst (App.create_mesh rq file_id w) = error_response (ValueError "Point cloud is empty!")
    /\ fs (snd (App.create_mesh rq file_id w))
          !! upload_path file_id (args_get rq "input_format" "ply")
       = Some (data rq).
Proof.
  intros rq file_id w ps cloud Hj Ho Hq Hread Hempty.
  unfold App.create_mesh, App.create_mesh_body, handler.
  erewrite bind_ok by (unfold lift; rewrite Hq; reflexivity).
  erewrite bind_ok by (apply AppFacts.save_binary; assumption).
  erewrite bind_raise.
  2: { apply ball_pivoting_empty_cloud with cloud; [| exact Hempty].
       simpl fs. rewrite lookup_insert_eq. exact Hread. }
  simpl. split; [reflexivity | apply lookup_insert_eq].
Qed.

(** C5, as amended.  POST /mesh makes at most one Ball Pivoting call in the
    Open3D service, and when that call raises, its exception is the error
    reported.  In the trimesh service the alpha shape is attempted at most
    once; either it stands alone in the log, having returned, or it is
    followed by exactly one convex hull, and then only an exception of the
    convex hull is reported as the error.  The convex hull is attempted
    exactly when the alpha shape raised, returned None or returned a mesh
    without faces, and its outcome is then the outcome of the step. *)
Theorem reconstruction_attempts :
  (forall rq file_id w,
      exists l,
        calls (snd (App.create_mesh rq file_id w)) = (calls w ++ l)%list
        /\ (l = [] \/
            exists radii o,
              l = [(BallPivoting radii, o)]
              /\ forall e, o = Some e ->
                           fst (App.create_mesh rq file_id w) = error_response e))
  /\ (forall rq file_id w,
        exists l,
          calls (snd (AppTrimesh.create_mesh rq file_id w)) = (calls w ++ l)%list
          /\ (l = [] \/
              exists alpha,
                l = [(AlphaShape alpha, None)]
                \/ exists o o',
                     l = [(AlphaShape alpha, o); (ConvexHull, o')]
                     /\ forall e, o' = Some e ->
                                  fst (AppTrimesh.create_mesh rq file_id w)
                                  = error_response e))
  /\ (forall coords alpha w,
        let attempt := AppTrimesh.alpha_shape coords alpha in
        let step := AppTrimesh.alpha_shape_or_hull coords alpha w in
        (calls (snd step) = (calls w ++ [(AlphaShape alpha, None)])%list
         /\ exists m, attempt = Ok (Some m) /\ AppTrimesh.len_faces m <> 0
                      /\ fst step = Ok m)
        \/ (calls (snd step)
            = (calls w ++ [(AlphaShape alpha, raised attempt);
                           (ConvexHull, raised (AppTrimesh.convex_hull coords))])%list
            /\ (forall m, attempt = Ok (Some m) -> AppTrimesh.len_faces m = 0)
            /\ fst step = AppTrimesh.convex_hull coords)).
Proof.
  split; [| split]; [intros rq file_id w .. | intros coords alpha w attempt step].
  - destruct (App.create_mesh rq file_id w) as [resp w'] eqn:E.
    destruct (app_create_mesh_calls _ _ _ _ _ E) as (l & Hc & Hl).
    exists l. split; [exact Hc |].
    destruct Hl as [-> | (ps & avg & o & _ & -> & Ho)]; [now left | right; eauto].
  - destruct (AppTrimesh.create_mesh rq file_id w) as [resp w'] eqn:E.
    destruct (trimesh_create_mesh_calls _ _ _ _ _ E) as (l & Hc & Hl).
    exists l. split; [exact Hc |].
    destruct Hl as [-> | (alpha & _ & [-> | (o & o' & -> & Ho)])]; [now left | right ..];
      exists alpha; [now left | right; eauto].
  - subst attempt step.
    destruct (AppTrimesh.alpha_shape_or_hull coords alpha w) as [r w'] eqn:E.
    destruct (AppTrimeshFacts.alpha_shape_or_hull_effect _ _ _ _ _ E)
      as (_ & _ & _ & [(Hc & m & -> & Hm & Hf) | (Hc & -> & Hf)]); simpl.
    + left. split; [exact Hc |]. exists m. auto.
    + right. auto.
Qed.



(** C8.  A JSON body that is an object (or a string that [json.loads] turns
    into an object) whose "points" entry is missing, null or the empty list:
    both conversions raise ValueError("No points in JSON data") and leave the
    world (files, log of writes) as it was; the /mesh/stats handlers answer
    with that error, and so do the /mesh handlers once their query parameters
    parse (otherwise they answer with the parse error); nothing is written in
    any case. *)
Theorem no_points_rejected :
  forall json_data items rq file_id w,
    load_data json_data = Ok (JObj items) ->
    dict_lookup "points" items = None \/ dict_lookup "points" items = Some JNull
    \/ dict_lookup "points" items = Some (JArr []) ->
    is_json rq = true ->
    get_json rq = Ok json_data ->
    let no_points := ValueError "No points in JSON data" in
    (forall path, App.json_to_ply json_data path w = (Raise no_points, w))
    /\ AppTrimesh.json_to_numpy json_data = Raise no_points
    /\ App.get_mesh_stats rq file_id w = (error_response no_points, w)
    /\ AppTrimesh.get_mesh_stats rq file_id w = (error_response no_points, w)
    /\ (exists e, App.create_mesh rq file_id w = (error_response e, w)
                  /\ (forall ps, App.query_params rq = Ok ps -> e = no_points))
    /\ (exists e, AppTrimesh.create_mesh rq file_id w = (error_response e, w)
                  /\ (forall alpha, AppTrimesh.query_alpha rq = Ok alpha -> e = no_points)).
Proof.
  intros json_data items rq file_id w Hd Hp Hj Hg no_points.
  apply no_points_falsy in Hp.
  split; [intros path; now apply json_to_ply_no_points with items |].
  split; [now apply json_to_numpy_no_points with items |].
  split; [| split; [| split]].
  - unfold App.get_mesh_stats, App.get_mesh_stats_body, handler.
    erewrite bind_raise by (eapply save_input_no_points; eauto). reflexivity.
  - unfold AppTrimesh.get_mesh_stats, AppTrimesh.get_mesh_stats_body, handler.
    erewrite bind_raise by (eapply get_mesh_stats_input_no_points; eauto). reflexivity.
  - unfold App.create_mesh, App.create_mesh_body, handler.
    destruct (App.query_params rq) as [ps | e] eqn:Eq.
    + exists no_points. split; [| reflexivity].
      erewrite bind_ok by reflexivity.
      erewrite bind_raise by (eapply save_input_no_points; eauto). reflexivity.
    + exists e. split; [| discriminate].
      erewrite bind_raise by reflexivity. reflexivity.
  - unfold AppTrimesh.create_mesh, AppTrimesh.create_mesh_body, handler.
    destruct (AppTrimesh.query_alpha rq) as [alpha | e] eqn:Eq.
    + exists no_points. split; [| reflexivity].
      erewrite bind_ok by reflexivity.
      erewrite bind_raise by (eapply create_mesh_input_no_points; eauto). reflexivity.
    + exists e. split; [| discriminate].
      erewrite bind_raise by reflexivity. reflexivity.
Qed.

(** C9, as amended.  [json_to_ply] stores, for a point [p] and a key among
    r, g, b: 128/255 (and not 0.5) when the key is absent; v/255 when it is
    present with a number v > 1 that [float] can hold, while an [int] beyond
    the doubles raises OverflowError; v itself when it is present with a
    number v <= 1; so a channel given in [0, 255] is stored as a number in
    [0, 1].  A point with x, y, z and three such channels gives the row of
    these three values, and the rows of all points are the colours of the
    cloud that [json_to_ply] writes to the file. *)
Theorem color_normalization :
  (forall items key,
      dict_lookup key items = None ->
      App.normalize_channel (JObj items) key = Ok (JFloat (inject_Z 128 / 255))
      /\ ~ (inject_Z 128 / 255 == 1 # 2)%Q
      /\ (0 <= inject_Z 128 / 255 <= 1)%Q)
  /\ (forall items key v q,
         dict_lookup key items = Some v -> as_number v = Some q -> (1 < q)%Q ->
         App.normalize_channel (JObj items) key
         = if int_beyond_float v
           then Raise (OverflowError "int too large to convert to float")
           else Ok (JFloat (q / 255)))
  /\ (forall items key v q,
         dict_lookup key items = Some v -> as_number v = Some q -> (q <= 1)%Q ->
         App.normalize_channel (JObj items) key = Ok v)
  /\ (forall items key v q,
         dict_lookup key items = Some v -> as_number v = Some q ->
         (0 <= q <= 255)%Q ->
         exists stored c,
           App.normalize_channel (JObj items) key = Ok stored
           /\ as_number stored = Some c /\ (0 <= c <= 1)%Q
           /\ (c == if Qle_bool q 1 then q else q / 255)%Q)
  /\ (forall items x y z r g b,
         dict_lookup "x" items = Some x -> dict_lookup "y" items = Some y ->
         dict_lookup "z" items = Some z ->
         App.normalize_channel (JObj items) "r" = Ok r ->
         App.normalize_channel (JObj items) "g" = Ok g ->
         App.normalize_channel (JObj items) "b" = Ok b ->
         App.point_row (JObj items) = Ok ([x; y; z], [r; g; b]))
  /\ (forall json_data d points rows cloud body path w,
         load_data json_data = Ok (JObj d) ->
         dict_lookup "points" d = Some (JArr points) ->
         points <> [] ->
         Forall2 (fun p row =>
                    exists x y z r g b,
                      py_getitem p "x" = Ok x /\ py_getitem p "y" = Ok y
                      /\ py_getitem p "z" = Ok z
                      /\ App.normalize_channel p "r" = Ok r
                      /\ App.normalize_channel p "g" = Ok g
                      /\ App.normalize_channel p "b" = Ok b
                      /\ row = ([x; y; z], [r; g; b])) points rows ->
         App.point_cloud_of (map fst rows) (map snd rows) = Ok cloud ->
         App.write_point_cloud path cloud = Ok (Some body) ->
         App.json_to_ply json_data path w
         = (Ok tt, World (<[path := body]> (fs w)) (written w ++ [path])
                         (calls w) (ticks w))).
Proof.
  assert (Hbig : forall items key v q,
             dict_lookup key items = Some v -> as_number v = Some q -> (1 < q)%Q ->
             App.normalize_channel (JObj items) key
             = if int_beyond_float v
               then Raise (OverflowError "int too large to convert to float")
               else Ok (JFloat (q / 255))).
  { intros items key v q Hv Hq Hlt.
    rewrite (normalize_channel_number items key v q);
      [| unfold dict_get; now rewrite Hv | exact Hq].
    apply Qle_bool_false in Hlt. now rewrite Hlt. }
  assert (Hsmall : forall items key v q,
             dict_lookup key items = Some v -> as_number v = Some q -> (q <= 1)%Q ->
             App.normalize_channel (JObj items) key = Ok v).
  { intros items key v q Hv Hq Hle.
    rewrite (normalize_channel_number items key v q);
      [| unfold dict_get; now rewrite Hv | exact Hq].
    apply Qle_bool_iff in Hle. rewrite Hle. unfold dict_get. now rewrite Hv. }
  split; [| split; [exact Hbig | split; [exact Hsmall | split; [| split]]]].
  - intros items key Hnone. split; [| split].
    + rewrite (normalize_channel_number items key (JInt 128) (inject_Z 128));
        [reflexivity | unfold dict_get; now rewrite Hnone | reflexivity].
    + intros Heq. vm_compute in Heq. discriminate.
    + split; intros Hc; vm_compute in Hc; discriminate.
  - intros items key v q Hv Hq [Hlo Hhi].
    assert (Hfit : int_beyond_float v = false).
    { destruct v; try reflexivity. cbn in Hq. injection Hq as <-.
      apply small_int_within_float.
      change 0%Q with (inject_Z 0) in Hlo. change 255%Q with (inject_Z 255) in Hhi.
      rewrite <- Zle_Qle in Hlo, Hhi. lia. }
    destruct (Qle_bool q 1) eqn:Ecmp.
    + apply Qle_bool_iff in Ecmp.
      exists v, q. rewrite (Hsmall items key v q Hv Hq Ecmp).
      split; [reflexivity | split; [exact Hq | split; [split; assumption | reflexivity]]].
    + apply Qle_bool_false in Ecmp.
      exists (JFloat (q / 255)), (q / 255)%Q.
      rewrite (Hbig items key v q Hv Hq Ecmp), Hfit.
      split; [reflexivity | split; [reflexivity | split; [split | reflexivity]]].
      * apply Qle_shift_div_l; [reflexivity | lra].
      * apply Qle_shift_div_r; [reflexivity | lra].
  - intros items x y z r g b Hx Hy Hz Hr Hg Hb.
    unfold App.point_row. cbn [py_getitem]. rewrite Hx, Hy, Hz. cbn [rbind].
    rewrite Hr, Hg, Hb. reflexivity.
  - intros json_data d points rows cloud body path w Hd Hp Hne Hrows Hcloud Hw.
    assert (Hmap : Py.mapM App.point_row points = Ok rows).
    { clear - Hrows. induction Hrows as [| p row ps rs Hrow _ IH]; [reflexivity |].
      destruct Hrow as (x & y & z & r & g & b & Hx & Hy & Hz & Hr & Hg & Hb & ->).
      cbn [Py.mapM]. unfold App.point_row at 1.
      rewrite Hx, Hy, Hz. cbn [rbind]. rewrite Hr, Hg, Hb. cbn [rbind].
      rewrite IH. reflexivity. }
    unfold App.json_to_ply.
    erewrite bind_ok by (unfold lift; rewrite Hd; reflexivity).
    erewrite bind_ok by (unfold lift, py_get, dict_get; rewrite Hp; reflexivity).
    destruct points as [| p0 points]; [contradiction |]. cbn [truthy negb].
    erewrite bind_ok by reflexivity.
    erewrite bind_ok by (unfold lift; rewrite Hmap; reflexivity).
    erewrite bind_ok by (unfold lift; rewrite Hcloud; reflexivity).
    unfold App.library_write, bind, lift, ret, store. rewrite Hw. reflexivity.
Qed.


End Claims.

(** ** The claims at explicit requests *)

Section Examples.
Import Example.
#[local] Existing Instances host open3d trimesh two_uuids.

(** C1 as stated fails: a JSON request for format=fbx passes the input and
    the reconstruction steps of the trimesh service, and is answered with the
    export's error instead of a mesh file. *)
Lemma mesh_not_returned_when_export_fails :
  exists input w1 result w2,
    AppTrimesh.query_alpha (json_request [("format", "fbx")] four_points) = Ok (5 # 100)%Q
    /\ AppTrimesh.create_mesh_input (json_request [("format", "fbx")] four_points)
                                    file_id empty_world = (Ok input, w1)
    /\ AppTrimesh.reconstruct_mesh_alpha_shape (fst input) (snd input) (5 # 100) w1
       = (Ok result, w2)
    /\ fst (AppTrimesh.create_mesh (json_request [("format", "fbx")] four_points)
                                   file_id empty_world)
       = error_response (ValueError "mesh exporter not available").
Proof.
  do 4 eexists. split; [reflexivity |].
  split; [vm_compute; reflexivity |].
  split; vm_compute; reflexivity.
Qed.

(** C1 on a JSON request of four points to the Open3D service. *)
Lemma mesh_file_returned_witness :
  exists m body w3,
    App.create_mesh (json_request [] four_points) file_id empty_world
    = (SendFile body "application/octet-stream" ("mesh_" ++ file_id ++ ".ply")
                [("X-Num-Vertices", StrInt (App.len_vertices m));
                 ("X-Num-Triangles", StrInt (App.len_triangles m));
                 ("X-Processing-Time", StrFloat (clock 1 - clock 0))], w3)
    /\ App.write_triangle_mesh (output_path file_id "ply") m = Ok (Some body)
    /\ fs w3 !! output_path file_id "ply" = Some body.
Proof.
  pose (rq := json_request [] four_points).
  pose (ps := App.Params (Some (3 # 2)%Q) (Some 2) (Some true) None None).
  pose (w1 := snd (App.save_input rq file_id empty_world)).
  pose (run := App.reconstruct_mesh_ball_pivoting
                 (upload_path file_id "ply") (output_path file_id "ply") ps w1).
  pose (st := match fst run with
              | Ok st => st
              | Raise _ => App.Stats 0 0 0 0 [] 0
              end).
  refine (proj1 mesh_file_returned rq file_id empty_world ps (upload_path file_id "ply")
                w1 st (snd run) _ _ _);
    vm_compute; reflexivity.
Defined.



(** C3 on an empty binary upload: the error is returned and the upload is
    still in the file system. *)
Lemma upload_kept_witness :
  fst (App.create_mesh (binary_request [] []) file_id empty_world)
  = error_response (ValueError "Point cloud is empty!")
  /\ fs (snd (App.create_mesh (binary_request [] []) file_id empty_world))
        !! upload_path file_id "ply" = Some [].
Proof.
  refine (upload_kept_when_reconstruction_fails
            (binary_request [] []) file_id empty_world
            (App.Params (Some (3 # 2)%Q) (Some 2) (Some true) None None)
            (0, false) _ _ _ _ _);
    reflexivity.
Defined.

(** C5 as stated fails: for alpha=0 the alpha-shape call of the trimesh
    service raises, a convex hull is computed next, and the request is
    answered with the hull instead of the error. *)
Lemma convex_hull_after_failed_alpha_shape :
  calls (snd (AppTrimesh.create_mesh (json_request [("alpha", "0")] four_points)
                                     file_id empty_world))
  = [(AlphaShape 0, Some (ValueError "alpha must be positive")); (ConvexHull, None)]
  /\ fst (AppTrimesh.create_mesh (json_request [("alpha", "0")] four_points)
                                 file_id empty_world)
     = SendFile (repeat "m"%byte 4) "application/octet-stream" ("mesh_" ++ file_id ++ ".ply")
                [("X-Num-Vertices", StrInt 4); ("X-Num-Triangles", StrInt 4);
                 ("X-Processing-Time", StrFloat (1 + - 0))].
Proof. split; vm_compute; reflexivity. Qed.



(** The identifiers have to differ: were the same one handed out twice, the
    second request would write the paths of the first. *)
Lemma repeated_identifier_repeats_paths :
  written (state (snd (@serve_all host open3d trimesh repeating_uuids
                         [(Open3dMesh, json_request [] four_points);
                          (Open3dMesh, json_request [] four_points)]
                         (Server empty_world 0))))
  = [upload_path file_id "ply"; output_path file_id "ply";
     upload_path file_id "ply"; output_path file_id "ply"].
Proof. vm_compute. reflexivity. Qed.

(** C8 on the body {} sent to /mesh/stats of the Open3D service. *)
Lemma no_points_rejected_witness :
  App.get_mesh_stats (json_request [] (JObj [])) file_id empty_world
  = (error_response (ValueError "No points in JSON data"), empty_world).
Proof.
  refine (proj1 (proj2 (proj2 (no_points_rejected (JObj []) [] (json_request [] (JObj []))
                                 file_id empty_world _ _ _ _))));
    [reflexivity | left; reflexivity | reflexivity | reflexivity].
Defined.

(** C9 as stated fails: a red channel of 10^400 is a number above 1, and
    nothing is stored for it; the division raises OverflowError and the
    request is answered with status 500. *)
Lemma huge_channel_overflows :
  App.normalize_channel (JObj [("r", JInt (10 ^ 400))]) "r"
  = Raise (OverflowError "int too large to convert to float")
  /\ App.point_row (JObj [("x", JInt 0); ("y", JInt 0); ("z", JInt 0);
                           ("r", JInt (10 ^ 400))])
     = Raise (OverflowError "int too large to convert to float")
  /\ App.create_mesh
       (json_request []
          (JObj [("points", JArr [JObj [("x", JInt 0); ("y", JInt 0); ("z", JInt 0);
                                        ("r", JInt (10 ^ 400))]])]))
       file_id empty_world
     = (Jsonify 500 (JObj [("error", JStr "int too large to convert to float");
                           ("type", JStr "OverflowError")]),
        empty_world).
Proof. repeat split; vm_compute; reflexivity. Qed.

(** C9 on a point with r = 200, g = 0.5 and no b. *)
Lemma color_normalization_witness :
  App.normalize_channel (JObj [("r", JInt 200); ("g", JFloat (1 # 2))]) "r"
  = Ok (JFloat (inject_Z 200 / 255))
  /\ App.normalize_channel (JObj [("r", JInt 200); ("g", JFloat (1 # 2))]) "g"
     = Ok (JFloat (1 # 2))
  /\ App.normalize_channel (JObj [("r", JInt 200); ("g", JFloat (1 # 2))]) "b"
     = Ok (JFloat (inject_Z 128 / 255)).
Proof.
  split; [| split].
  - refine (proj1 (proj2 color_normalization) _ "r" (JInt 200) (inject_Z 200) _ _ _);
      reflexivity.
  - refine (proj1 (proj2 (proj2 color_normalization)) _ "g" (JFloat (1 # 2)) (1 # 2)%Q _ _ _);
      [reflexivity | reflexivity | discriminate].
  - refine (proj1 (proj1 color_normalization _ "b" _)). reflexivity.
Defined.



End Examples.

(** * Further properties of the services *)

(** ** Files a request leaves alone *)

Section Frame.

Lemma only_touches_refl file_id m : only_touches file_id m m.
Proof. intros p _ _. reflexivity. Qed.

Lemma only_touches_trans file_id m1 m2 m3 :
  only_touches file_id m1 m2 -> only_touches file_id m2 m3 -> only_touches file_id m1 m3.
Proof. intros H12 H23 p Hu Ho. rewrite (H23 p Hu Ho). exact (H12 p Hu Ho). Qed.

Lemma only_touches_insert_upload file_id ext body m :
  only_touches file_id m (<[upload_path file_id ext := body]> m).
Proof. intros p Hu _. apply lookup_insert_ne. intros Heq. exact (Hu ext (eq_sym Heq)). Qed.

Lemma only_touches_insert_output file_id ext body m :
  only_touches file_id m (<[output_path file_id ext := body]> m).
Proof. intros p _ Ho. apply lookup_insert_ne. intros Heq. exact (Ho ext (eq_sym Heq)). Qed.

Lemma only_touches_delete_upload file_id ext m :
  only_touches file_id m (delete (upload_path file_id ext) m).
Proof. intros p Hu _. apply lookup_delete_ne. intros Heq. exact (Hu ext (eq_sym Heq)). Qed.

End Frame.

Section FileEffects.
Context {H : Host} {O : App.Open3D} {T : AppTrimesh.Trimesh}.

(** What the clean-up of [App.respond] does to the files. *)
Lemma o3d_respond_fs file_id input_path out_path ext st w r w' :
  App.respond file_id input_path out_path ext st w = (r, w') ->
  ticks w' = ticks w
  /\ ((fs w' = fs w /\ (fs w !! input_path = None \/ remove_error input_path <> None))
      \/ (fs w' = delete input_path (fs w) /\ remove_error input_path = None)).
Proof.
  unfold App.respond. intros E. run; split; auto.
  all: first [ right; split; [reflexivity | assumption]
             | left; split; [reflexivity |]; first [left; assumption | right; congruence] ].
Qed.

Lemma o3d_get_mesh_stats_fs rq file_id w resp w' :
  App.get_mesh_stats rq file_id w = (resp, w') ->
  exists r w1,
    App.save_input rq file_id w = (r, w1)
    /\ ticks w' = ticks w1
    /\ (fs w' = fs w1
        \/ exists input_path, r = Ok input_path /\ fs w' = delete input_path (fs w1)).
Proof.
  unfold App.get_mesh_stats, App.get_mesh_stats_body, handler. unfold bind at 1.
  destruct (App.save_input rq file_id w) as [[input_path | e] w1].
  - unfold App.mean_distance, App.read_file. intros E. exists (Ok input_path), w1.
    split; [reflexivity |]. run; split; eauto.
  - intros [= <- <-]. exists (Raise e), w1. auto.
Qed.

Lemma tm_create_mesh_input_fs rq file_id w r w' :
  AppTrimesh.create_mesh_input rq file_id w = (r, w') ->
  let up := upload_path file_id "ply" in
  (is_json rq = true -> w' = w)
  /\ (fs w' = fs w \/ fs w' = <[up := data rq]> (fs w)
      \/ fs w' = delete up (<[up := data rq]> (fs w)))
  /\ (is_json rq = false -> forall x, r = Ok x ->
      fs w' = delete up (<[up := data rq]> (fs w)) /\ remove_error up = None).
Proof.
  unfold AppTrimesh.create_mesh_input, AppTrimesh.load_binary.
  destruct (is_json rq); intros E; cbv zeta; run.
  all: repeat split; auto; try discriminate.
  all: intros _ x [=]; subst; auto.
Qed.

Lemma tm_get_mesh_stats_input_fs rq file_id w r w' :
  AppTrimesh.get_mesh_stats_input rq file_id w = (r, w') ->
  let up := upload_path file_id "ply" in
  (is_json rq = true -> w' = w)
  /\ ticks w' = ticks w
  /\ (fs w' = fs w \/ fs w' = <[up := data rq]> (fs w)
      \/ fs w' = delete up (<[up := data rq]> (fs w)))
  /\ (is_json rq = false -> forall x, r = Ok x ->
      fs w' = delete up (<[up := data rq]> (fs w))).
Proof.
  unfold AppTrimesh.get_mesh_stats_input, AppTrimesh.load_binary.
  destruct (is_json rq); intros E; cbv zeta; run.
  all: repeat split; auto; try discriminate.
Qed.

Lemma tm_respond_fs file_id output_format m st w r w' :
  AppTrimesh.respond file_id output_format m st w = (r, w') ->
  ticks w' = ticks w
  /\ ((fs w' = fs w /\ written w' = written w /\ exists e, r = Raise e)
      \/ exists body resp,
           AppTrimesh.export (output_path file_id (AppTrimesh.lower output_format)) m = Ok body
           /\ fs w' = <[output_path file_id (AppTrimesh.lower output_format) := body]> (fs w)
           /\ written w'
              = (written w ++ [output_path file_id (AppTrimesh.lower output_format)])%list
           /\ r = Ok resp).
Proof.
  unfold AppTrimesh.respond. intros E. run.
  all: try match goal with
           | E : <[?p := _]> _ !! ?p = None |- _ => rewrite lookup_insert_eq in E; discriminate
           end.
  all: split; auto.
  all: first [ left; repeat split; eauto; fail
             | right; do 2 eexists; repeat split; eauto ].
Qed.

(** After its input stage the trimesh /mesh/stats handler changes nothing. *)
Lemma tm_get_mesh_stats_world rq file_id w :
  snd (AppTrimesh.get_mesh_stats rq file_id w)
  = snd (AppTrimesh.get_mesh_stats_input rq file_id w).
Proof.
  unfold AppTrimesh.get_mesh_stats, AppTrimesh.get_mesh_stats_body, handler.
  unfold bind at 1.
  destruct (AppTrimesh.get_mesh_stats_input rq file_id w) as [[coords | e] w1];
    [| reflexivity].
  unfold bind, lift, ret. simpl.
  destruct (AppTrimesh.sample_distances coords); [| reflexivity].
  destruct (np_mean a); [| reflexivity].
  destruct (AppTrimesh.np_len coords); reflexivity.
Qed.

End FileEffects.

Section MoreProperties.
Context {H : Host} {O : App.Open3D} {T : AppTrimesh.Trimesh}.

(** X1.  The handlers hand no path to [open], [os.remove] or a writing
    library call other than uploads/<id>.<ext> and outputs/<id>.<ext> of
    their own identifier.  A writing library call being taken to produce
    only the file whose path it is given, a request to any of the four POST
    handlers leaves every other path of the file system as it was. *)
Theorem request_touches_only_its_files :
  forall rq file_id w,
    only_touches file_id (fs w) (fs (snd (App.create_mesh rq file_id w)))
    /\ only_touches file_id (fs w) (fs (snd (App.get_mesh_stats rq file_id w)))
    /\ only_touches file_id (fs w) (fs (snd (AppTrimesh.create_mesh rq file_id w)))
    /\ only_touches file_id (fs w) (fs (snd (AppTrimesh.get_mesh_stats rq file_id w))).
Proof.
  intros rq file_id w. split; [| split; [| split]].
  - destruct (App.create_mesh rq file_id w) as [resp w'] eqn:E. simpl.
    apply AppFacts.o3d_create_mesh_stages in E.
    destruct E as [(e & _ & _ & ->) | (ps & _ & [(e & Es & _) | (inp & w1 & Es & Er)])].
    + apply only_touches_refl.
    + apply AppFacts.save_input_effect in Es.
      destruct Es as (_ & _ & ext & _ & [[-> _] | (b & -> & _)]);
        [apply only_touches_refl | apply only_touches_insert_upload].
    + apply AppFacts.save_input_effect in Es.
      destruct Es as (_ & _ & ext & Hin & Hfs). specialize (Hin _ eq_refl). subst inp.
      assert (H1 : only_touches file_id (fs w) (fs w1)).
      { destruct Hfs as [[-> _] | (b & -> & _)];
          [apply only_touches_refl | apply only_touches_insert_upload]. }
      apply (only_touches_trans _ _ _ _ H1). clear H1 Hfs.
      destruct Er as [(e & Er & _) | (st & w2 & r & Er & Ep & _)].
      * apply AppFacts.ball_pivoting_effect in Er. destruct Er as (_ & -> & _).
        apply only_touches_refl.
      * apply AppFacts.ball_pivoting_effect in Er.
        destruct Er as (_ & m & b & _ & Hfs2 & _).
        apply only_touches_trans with (fs w2);
          [rewrite Hfs2; apply only_touches_insert_output |].
        apply o3d_respond_fs in Ep.
        destruct Ep as (_ & [[-> _] | [-> _]]);
          [apply only_touches_refl | apply only_touches_delete_upload].
  - destruct (App.get_mesh_stats rq file_id w) as [resp w'] eqn:E. simpl.
    apply o3d_get_mesh_stats_fs in E. destruct E as (r & w1 & Es & _ & Hfs).
    apply AppFacts.save_input_effect in Es.
    destruct Es as (_ & _ & ext & Hin & Hfs1).
    assert (H1 : only_touches file_id (fs w) (fs w1)).
    { destruct Hfs1 as [[-> _] | (b & -> & _)];
        [apply only_touches_refl | apply only_touches_insert_upload]. }
    apply (only_touches_trans _ _ _ _ H1).
    destruct Hfs as [-> | (inp & -> & ->)]; [apply only_touches_refl |].
    rewrite (Hin _ eq_refl). apply only_touches_delete_upload.
  - destruct (AppTrimesh.create_mesh rq file_id w) as [resp w'] eqn:E. simpl.
    assert (Hin : forall r w1, AppTrimesh.create_mesh_input rq file_id w = (r, w1) ->
                               only_touches file_id (fs w) (fs w1)).
    { intros r w1 Ei. apply tm_create_mesh_input_fs in Ei.
      destruct Ei as (_ & [-> | [-> | ->]] & _).
      - apply only_touches_refl.
      - apply only_touches_insert_upload.
      - eapply only_touches_trans;
          [apply only_touches_insert_upload | apply only_touches_delete_upload]. }
    apply AppTrimeshFacts.tm_create_mesh_stages in E.
    destruct E as [(e & _ & _ & ->) | (a & _ & [(e & Ei & _) | (inp & w1 & Ei & Er)])].
    + apply only_touches_refl.
    + eapply Hin; eauto.
    + apply (only_touches_trans _ _ _ _ (Hin _ _ Ei)).
      destruct Er as [(e & Er & _) | (m & st & w2 & r & Er & Ep & _)];
        apply AppTrimeshFacts.alpha_shape_effect in Er; destruct Er as (Hfs2 & _).
      * rewrite Hfs2. apply only_touches_refl.
      * rewrite <- Hfs2. apply tm_respond_fs in Ep.
        destruct Ep as (_ & [(-> & _) | (b & resp' & _ & -> & _)]);
          [apply only_touches_refl | apply only_touches_insert_output].
  - rewrite tm_get_mesh_stats_world.
    destruct (AppTrimesh.get_mesh_stats_input rq file_id w) as [r w1] eqn:Ei. simpl.
    apply tm_get_mesh_stats_input_fs in Ei.
    destruct Ei as (_ & _ & [-> | [-> | ->]] & _).
    + apply only_touches_refl.
    + apply only_touches_insert_upload.
    + eapply only_touches_trans;
        [apply only_touches_insert_upload | apply only_touches_delete_upload].
Qed.

(** X2.  POST /mesh of the Open3D service, when the reconstruction returns and
    the operating system lets the upload be removed: after the request the
    upload is gone and the mesh file is in the outputs directory. *)
Theorem upload_deleted_after_success :
  forall rq file_id w ps input_path w1 st w2,
    App.query_params rq = Ok ps ->
    App.save_input rq file_id w = (Ok input_path, w1) ->
    App.reconstruct_mesh_ball_pivoting
      input_path (output_path file_id (App.output_ext rq)) ps w1 = (Ok st, w2) ->
    remove_error input_path = None ->
    fs (snd (App.create_mesh rq file_id w)) !! input_path = None
    /\ fs (snd (App.create_mesh rq file_id w)) !! output_path file_id (App.output_ext rq)
       = fs w2 !! output_path file_id (App.output_ext rq)
    /\ is_Some (fs (snd (App.create_mesh rq file_id w))
                   !! output_path file_id (App.output_ext rq)).
Proof.
  intros rq file_id w ps input_path w1 st w2 Hq Hs Hr Hrm.
  destruct (AppFacts.save_input_effect _ _ _ _ _ Hs) as (_ & _ & ext & Hin & _).
  specialize (Hin _ eq_refl). subst input_path.
  destruct (AppFacts.ball_pivoting_effect _ _ _ _ _ _ Hr) as (_ & m & body & _ & Hfs & _).
  unfold App.create_mesh, App.create_mesh_body, handler.
  erewrite bind_ok by (unfold lift; rewrite Hq; reflexivity).
  erewrite bind_ok by exact Hs.
  erewrite bind_ok by exact Hr.
  destruct (App.respond _ _ _ _ st w2) as [r w3] eqn:Ep.
  assert (Hw3 : snd (match r with
                     | Ok r0 => (r0, w3)
                     | Raise e => (error_response e, w3)
                     end) = w3) by (destruct r; reflexivity).
  rewrite Hw3. apply o3d_respond_fs in Ep.
  assert (Hne : upload_path file_id ext <> output_path file_id (App.output_ext rq))
    by apply upload_not_output.
  destruct Ep as (_ & [(-> & [Hnone | Hbad]) | (-> & _)]).
  - split; [exact Hnone | split; [reflexivity |]]. rewrite Hfs, lookup_insert_eq. eauto.
  - contradiction.
  - split; [apply lookup_delete_eq |]. split; [now apply lookup_delete_ne |].
    rewrite lookup_delete_ne by exact Hne. rewrite Hfs, lookup_insert_eq. eauto.
Qed.

(** X3.  For POST /mesh in both services: a file is written under outputs/
    exactly when the answer is the mesh file (and not a JSON error). *)
Theorem output_written_iff_mesh_returned :
  forall rq file_id w,
    (exists l,
        written (snd (App.create_mesh rq file_id w)) = (written w ++ l)%list
        /\ ((exists body name headers,
                fst (App.create_mesh rq file_id w)
                = SendFile body "application/octet-stream" name headers)
            <-> exists ext, In (output_path file_id ext) l))
    /\ (exists l,
          written (snd (AppTrimesh.create_mesh rq file_id w)) = (written w ++ l)%list
          /\ ((exists body name headers,
                  fst (AppTrimesh.create_mesh rq file_id w)
                  = SendFile body "application/octet-stream" name headers)
              <-> exists ext, In (output_path file_id ext) l)).
Proof.
  intros rq file_id w.
  assert (Herr : forall e l, (forall ext, ~ In (output_path file_id ext) l) ->
            (exists body name headers,
                error_response e = SendFile body "application/octet-stream" name headers)
            <-> exists ext, In (output_path file_id ext) l).
  { intros e l Hl. split; [intros (? & ? & ? & [=]) | intros (ext & Hi); now apply Hl in Hi]. }
  assert (Hnil : forall ext, ~ In (output_path file_id ext) []) by (intros ? []).
  assert (Hup : forall ext' ext, ~ In (output_path file_id ext) [upload_path file_id ext']).
  { intros ext' ext [Heq | []]. revert Heq. apply upload_not_output. }
  split.
  - destruct (App.create_mesh rq file_id w) as [resp w'] eqn:E. simpl.
    apply AppFacts.o3d_create_mesh_stages in E.
    destruct E as [(e & _ & -> & ->) | (ps & _ & [(e & Es & ->) | (inp & w1 & Es & Er)])].
    + exists []. split; [now rewrite app_nil_r | now apply Herr].
    + apply AppFacts.save_input_effect in Es.
      destruct Es as (_ & _ & ext & _ & [[_ ->] | (b & _ & ->)]).
      * exists []. split; [now rewrite app_nil_r | now apply Herr].
      * eexists. split; [reflexivity | apply Herr, Hup].
    + apply AppFacts.save_input_effect in Es.
      destruct Es as (_ & _ & ext & Hin & Hw). specialize (Hin _ eq_refl). subst inp.
      assert (Hw1 : exists l1, written w1 = (written w ++ l1)%list
                               /\ forall ext0, ~ In (output_path file_id ext0) l1).
      { destruct Hw as [[_ ->] | (b & _ & ->)];
          [exists []; split; [now rewrite app_nil_r | exact Hnil]
          | eexists; split; [reflexivity | apply Hup]]. }
      destruct Hw1 as (l1 & Hw1 & Hl1).
      destruct Er as [(e & Er & ->) | (st & w2 & r & Er & Ep & ->)].
      * apply AppFacts.ball_pivoting_effect in Er. destruct Er as (_ & _ & ->).
        exists l1. split; [exact Hw1 | now apply Herr].
      * apply AppFacts.ball_pivoting_effect in Er.
        destruct Er as (_ & m & b & _ & Hfs2 & Hw2 & _).
        destruct (AppFacts.o3d_respond_ok file_id (upload_path file_id ext)
                    (output_path file_id (App.output_ext rq)) (App.output_ext rq) st w2 b)
          as (w3 & Hresp & _).
        { apply upload_not_output. }
        { rewrite Hfs2. apply lookup_insert_eq. }
        rewrite Hresp in Ep. injection Ep as <- <-.
        pose proof (AppFacts.o3d_respond_effect _ _ _ _ _ _ _ _ Hresp) as (_ & ->).
        exists (l1 ++ [output_path file_id (App.output_ext rq)])%list.
        split; [rewrite Hw2, Hw1; now rewrite app_assoc |].
        split; [intros _ | intros _; eauto].
        exists (App.output_ext rq). apply in_or_app. right. now left.
  - destruct (AppTrimesh.create_mesh rq file_id w) as [resp w'] eqn:E. simpl.
    apply AppTrimeshFacts.tm_create_mesh_stages in E.
    assert (Hin : forall r w1, AppTrimesh.create_mesh_input rq file_id w = (r, w1) ->
              exists l1, written w1 = (written w ++ l1)%list
                         /\ forall ext0, ~ In (output_path file_id ext0) l1).
    { intros r w1 Ei. apply AppTrimeshFacts.create_mesh_input_effect in Ei.
      destruct Ei as (_ & _ & [-> | ->]);
        [exists []; split; [now rewrite app_nil_r | exact Hnil]
        | eexists; split; [reflexivity | apply Hup]]. }
    destruct E as [(e & _ & -> & ->) | (a & _ & [(e & Ei & ->) | (inp & w1 & Ei & Er)])].
    + exists []. split; [now rewrite app_nil_r | now apply Herr].
    + destruct (Hin _ _ Ei) as (l1 & Hw1 & Hl1). exists l1. split; [exact Hw1 | now apply Herr].
    + destruct (Hin _ _ Ei) as (l1 & Hw1 & Hl1).
      destruct Er as [(e & Er & ->) | (m & st & w2 & r & Er & Ep & ->)];
        apply AppTrimeshFacts.alpha_shape_effect in Er; destruct Er as (_ & Hw2 & _).
      * exists l1. split; [congruence | now apply Herr].
      * pose proof (tm_respond_fs _ _ _ _ _ _ _ Ep)
          as (_ & [(_ & Hw3 & e & ->) | (b & resp' & Hex & _ & Hw3 & ->)]).
        -- exists l1. split; [congruence | now apply Herr].
        -- destruct (AppTrimeshFacts.tm_respond_ok file_id (args_get rq "format" "ply")
                       m st w2 b Hex) as (w3 & Hresp & _).
           rewrite Hresp in Ep. injection Ep as <- _.
           eexists (l1 ++ [_])%list.
           split; [rewrite Hw3, Hw2, Hw1; now rewrite app_assoc |].
           split; [intros _ | intros _; eauto].
           eexists. apply in_or_app. right. now left.
Qed.

(** X4.  POST /mesh/stats, in both services, makes no reconstruction call,
    never reads the clock and writes nothing under outputs/. *)
Theorem stats_never_reconstructs :
  forall rq file_id w,
    (calls (snd (App.get_mesh_stats rq file_id w)) = calls w
     /\ ticks (snd (App.get_mesh_stats rq file_id w)) = ticks w
     /\ exists l, written (snd (App.get_mesh_stats rq file_id w)) = (written w ++ l)%list
                  /\ forall ext, ~ In (output_path file_id ext) l)
    /\ (calls (snd (AppTrimesh.get_mesh_stats rq file_id w)) = calls w
        /\ ticks (snd (AppTrimesh.get_mesh_stats rq file_id w)) = ticks w
        /\ exists l, written (snd (AppTrimesh.get_mesh_stats rq file_id w))
                     = (written w ++ l)%list
                     /\ forall ext, ~ In (output_path file_id ext) l).
Proof.
  intros rq file_id w.
  assert (Hnil : forall ext, ~ In (output_path file_id ext) []) by (intros ? []).
  assert (Hup : forall ext' ext, ~ In (output_path file_id ext) [upload_path file_id ext']).
  { intros ext' ext [Heq | []]. revert Heq. apply upload_not_output. }
  split.
  - destruct (App.get_mesh_stats rq file_id w) as [resp w'] eqn:E. simpl.
    destruct (app_get_mesh_stats_stages _ _ _ _ _ E) as (r & w1 & Es & Hw & Hc & _).
    destruct (o3d_get_mesh_stats_fs _ _ _ _ _ E) as (r' & w1' & Es' & Ht & _).
    rewrite Es in Es'. injection Es' as <- <-.
    apply AppFacts.save_input_effect in Es.
    destruct Es as (Hc1 & Ht1 & ext & _ & Hw1).
    split; [congruence | split; [congruence |]]. rewrite Hw.
    destruct Hw1 as [[_ ->] | (b & _ & ->)];
      [exists []; split; [now rewrite app_nil_r | exact Hnil]
      | eexists; split; [reflexivity | apply Hup]].
  - rewrite tm_get_mesh_stats_world.
    destruct (AppTrimesh.get_mesh_stats_input rq file_id w) as [r w1] eqn:Ei. simpl.
    destruct (AppTrimeshFacts.get_mesh_stats_input_effect _ _ _ _ _ Ei) as (Hc & Hw).
    destruct (tm_get_mesh_stats_input_fs _ _ _ _ _ Ei) as (_ & Ht & _).
    split; [exact Hc | split; [exact Ht |]].
    destruct Hw as [-> | ->];
      [exists []; split; [now rewrite app_nil_r | exact Hnil]
      | eexists; split; [reflexivity | apply Hup]].
Qed.

(** X5.  POST /mesh/stats of the Open3D service, once the input is saved and
    the library calls return: the answer is the 200 JSON of the cloud's
    statistics, also for a cloud without points (there is no emptiness check
    as in /mesh); the suggested radius is 1.5 times the average distance,
    which is the first ball radius /mesh uses by default; and the upload is
    gone when the operating system lets it be removed. *)
Theorem stats_of_cloud :
  forall rq file_id w input_path w1 cloud distances avg,
    App.save_input rq file_id w = (Ok input_path, w1) ->
    App.read_point_cloud input_path (fs w1 !! input_path) = Ok cloud ->
    App.compute_nearest_neighbor_distance cloud = Ok distances ->
    np_mean distances = Ok avg ->
    fst (App.get_mesh_stats rq file_id w)
    = Jsonify 200 (JObj [("num_points", JInt (App.len_points cloud));
                         ("avg_point_distance", JFloat avg);
                         ("suggested_radius", JFloat (avg * (3 # 2)));
                         ("has_normals", JBool (App.has_normals cloud));
                         ("has_colors", JBool (App.has_colors cloud))])
    /\ (exists r, hd_error (App.ball_radii avg (3 # 2) 2) = Some r
                  /\ (r == avg * (3 # 2))%Q)
    /\ (remove_error input_path = None ->
        fs (snd (App.get_mesh_stats rq file_id w)) !! input_path = None).
Proof.
  intros rq file_id w input_path w1 cloud distances avg Hs Hread Hd Hm.
  unfold App.get_mesh_stats, App.get_mesh_stats_body, handler.
  erewrite bind_ok by exact Hs.
  erewrite bind_ok by reflexivity.
  erewrite bind_ok by (unfold lift; rewrite Hread; reflexivity).
  erewrite bind_ok
    by (unfold App.mean_distance; erewrite bind_ok
          by (unfold lift; rewrite Hd; reflexivity);
        unfold lift; rewrite Hm; reflexivity).
  unfold bind, ret, try_pass, os_remove.
  split; [| split].
  - destruct (fs w1 !! input_path); [destruct (remove_error input_path) |]; reflexivity.
  - exists (avg * ((3 # 2) * (1 + inject_Z 0 * (1 # 2))))%Q. split; [reflexivity |].
    change (inject_Z 0) with 0%Q. ring.
  - intros Hrm. rewrite Hrm.
    destruct (fs w1 !! input_path) eqn:Ef; simpl; [apply lookup_delete_eq | exact Ef].
Qed.

(** X6.  A JSON request to the trimesh service never uses the uploads
    directory: /mesh/stats leaves the whole world as it was, and /mesh writes
    no upload. *)
Theorem trimesh_json_needs_no_upload :
  forall rq file_id w,
    is_json rq = true ->
    snd (AppTrimesh.get_mesh_stats rq file_id w) = w
    /\ exists l,
         written (snd (AppTrimesh.create_mesh rq file_id w)) = (written w ++ l)%list
         /\ forall ext, ~ In (upload_path file_id ext) l.
Proof.
  intros rq file_id w Hj. split.
  - rewrite tm_get_mesh_stats_world.
    destruct (AppTrimesh.get_mesh_stats_input rq file_id w) as [r w1] eqn:Ei. simpl.
    apply tm_get_mesh_stats_input_fs in Ei. destruct Ei as (Hw & _). now apply Hw.
  - assert (Hnil : forall ext, ~ In (upload_path file_id ext) []) by (intros ? []).
    destruct (AppTrimesh.create_mesh rq file_id w) as [resp w'] eqn:E. simpl.
    apply AppTrimeshFacts.tm_create_mesh_stages in E.
    destruct E as [(e & _ & _ & ->) | (a & _ & [(e & Ei & _) | (inp & w1 & Ei & Er)])].
    + exists []. split; [now rewrite app_nil_r | exact Hnil].
    + apply tm_create_mesh_input_fs in Ei. destruct Ei as (Hw & _). rewrite (Hw Hj).
      exists []. split; [now rewrite app_nil_r | exact Hnil].
    + apply tm_create_mesh_input_fs in Ei. destruct Ei as (Hw & _).
      rewrite (Hw Hj) in Er. clear Hw w1.
      destruct Er as [(e & Er & _) | (m & st & w2 & r & Er & Ep & _)];
        apply AppTrimeshFacts.alpha_shape_effect in Er; destruct Er as (_ & Hw2 & _).
      * rewrite Hw2. exists []. split; [now rewrite app_nil_r | exact Hnil].
      * apply AppTrimeshFacts.tm_respond_effect in Ep. destruct Ep as (_ & [-> | ->]);
          rewrite Hw2.
        -- exists []. split; [now rewrite app_nil_r | exact Hnil].
        -- eexists. split; [reflexivity |].
           intros ext [Heq | []]. symmetry in Heq. revert Heq. apply upload_not_output.
Qed.

(** X7.  A binary request to the trimesh service that is answered with
    success: the upload no longer exists, and after /mesh/stats the file
    system is exactly what it was when the upload path was free before. *)
Theorem trimesh_upload_removed_on_success :
  forall rq file_id w,
    is_json rq = false ->
    (forall body,
        fst (AppTrimesh.get_mesh_stats rq file_id w) = Jsonify 200 body ->
        fs (snd (AppTrimesh.get_mesh_stats rq file_id w)) !! upload_path file_id "ply" = None
        /\ (fs w !! upload_path file_id "ply" = None ->
            fs (snd (AppTrimesh.get_mesh_stats rq file_id w)) = fs w))
    /\ (forall body name headers,
          fst (AppTrimesh.create_mesh rq file_id w) = SendFile body "application/octet-stream"
                                                               name headers ->
          fs (snd (AppTrimesh.create_mesh rq file_id w)) !! upload_path file_id "ply" = None).
Proof.
  intros rq file_id w Hj. split.
  - intros body Hresp.
    assert (Hok : exists coords, fst (AppTrimesh.get_mesh_stats_input rq file_id w) = Ok coords).
    { revert Hresp.
      unfold AppTrimesh.get_mesh_stats, AppTrimesh.get_mesh_stats_body, handler.
      unfold bind at 1.
      destruct (AppTrimesh.get_mesh_stats_input rq file_id w) as [[coords | e] w1];
        [eauto | discriminate]. }
    destruct Hok as (coords & Hok).
    rewrite tm_get_mesh_stats_world.
    destruct (AppTrimesh.get_mesh_stats_input rq file_id w) as [r w1] eqn:Ei.
    simpl in *. subst r.
    apply tm_get_mesh_stats_input_fs in Ei. destruct Ei as (_ & _ & _ & Hfs).
    rewrite (Hfs Hj _ eq_refl). split.
    + apply lookup_delete_eq.
    + intros Hfree. now apply delete_insert_id.
  - intros body name headers Hresp.
    destruct (AppTrimesh.create_mesh rq file_id w) as [resp w'] eqn:E. simpl in *.
    subst resp. apply AppTrimeshFacts.tm_create_mesh_stages in E.
    destruct E as [(e & _ & [=] & _) | (a & _ & [(e & _ & [=]) | (inp & w1 & Ei & Er)])].
    apply tm_create_mesh_input_fs in Ei. destruct Ei as (_ & _ & Hfs).
    destruct (Hfs Hj _ eq_refl) as (Hfs1 & _). clear Hfs.
    destruct Er as [(e & _ & [=]) | (m & st & w2 & r & Er & Ep & Hr)].
    apply AppTrimeshFacts.alpha_shape_effect in Er. destruct Er as (Hfs2 & _).
    apply tm_respond_fs in Ep.
    destruct Ep as (_ & [(_ & _ & e & ->) | (b & resp' & _ & -> & _)]); [discriminate |].
    rewrite lookup_insert_ne by (intros Heq; symmetry in Heq; revert Heq; apply upload_not_output).
    rewrite Hfs2, Hfs1. apply lookup_delete_eq.
Qed.

(** X8.  A binary request to the trimesh service whose upload [trimesh.load]
    cannot read: the handlers answer with the library's error, and the upload
    stays in the uploads directory. *)
Theorem trimesh_upload_kept_when_load_fails :
  forall rq file_id w e,
    is_json rq = false ->
    open_error (upload_path file_id "ply") = None ->
    AppTrimesh.trimesh_load (upload_path file_id "ply") (Some (data rq)) = Raise e ->
    (fst (AppTrimesh.get_mesh_stats rq file_id w) = error_response e
     /\ fs (snd (AppTrimesh.get_mesh_stats rq file_id w)) !! upload_path file_id "ply"
        = Some (data rq))
    /\ (forall alpha,
          AppTrimesh.query_alpha rq = Ok alpha ->
          fst (AppTrimesh.create_mesh rq file_id w) = error_response e
          /\ fs (snd (AppTrimesh.create_mesh rq file_id w)) !! upload_path file_id "ply"
             = Some (data rq)).
Proof.
  intros rq file_id w e Hj Ho Hl.
  assert (Hload : AppTrimesh.load_binary rq file_id w
                  = (Raise e, World (<[upload_path file_id "ply" := data rq]> (fs w))
                                    (written w ++ [upload_path file_id "ply"])
                                    (calls w) (ticks w))).
  { unfold AppTrimesh.load_binary, open_write. rewrite Ho.
    erewrite bind_ok by reflexivity.
    erewrite bind_ok by reflexivity.
    unfold lift. simpl fs. rewrite lookup_insert_eq, Hl. reflexivity. }
  split.
  - unfold AppTrimesh.get_mesh_stats, AppTrimesh.get_mesh_stats_body, handler,
      AppTrimesh.get_mesh_stats_input.
    rewrite Hj.
    erewrite bind_raise by (erewrite bind_raise by exact Hload; reflexivity).
    simpl. split; [reflexivity | apply lookup_insert_eq].
  - intros alpha Hq.
    unfold AppTrimesh.create_mesh, AppTrimesh.create_mesh_body, handler,
      AppTrimesh.create_mesh_input.
    rewrite Hj.
    erewrite bind_ok by (unfold lift; rewrite Hq; reflexivity).
    erewrite bind_raise by (erewrite bind_raise by exact Hload; reflexivity).
    simpl. split; [reflexivity | apply lookup_insert_eq].
Qed.

(** X9.  In the trimesh service a failing [os.remove] of the upload is not
    ignored as it is in app.py: /mesh/stats answers 500 with that error and
    the upload stays. *)
Theorem trimesh_remove_failure_reported :
  forall rq file_id w point_cloud coords e,
    is_json rq = false ->
    open_error (upload_path file_id "ply") = None ->
    AppTrimesh.trimesh_load (upload_path file_id "ply") (Some (data rq)) = Ok point_cloud ->
    AppTrimesh.vertices_of point_cloud = Ok coords ->
    remove_error (upload_path file_id "ply") = Some e ->
    fst (AppTrimesh.get_mesh_stats rq file_id w) = error_response e
    /\ fs (snd (AppTrimesh.get_mesh_stats rq file_id w)) !! upload_path file_id "ply"
       = Some (data rq).
Proof.
  intros rq file_id w point_cloud coords e Hj Ho Hl Hv Hrm.
  assert (Hload : AppTrimesh.load_binary rq file_id w
                  = (Ok point_cloud, World (<[upload_path file_id "ply" := data rq]> (fs w))
                                           (written w ++ [upload_path file_id "ply"])
                                           (calls w) (ticks w))).
  { unfold AppTrimesh.load_binary, open_write. rewrite Ho.
    erewrite bind_ok by reflexivity.
    erewrite bind_ok by reflexivity.
    unfold lift. simpl fs. rewrite lookup_insert_eq, Hl. reflexivity. }
  unfold AppTrimesh.get_mesh_stats, AppTrimesh.get_mesh_stats_body, handler,
    AppTrimesh.get_mesh_stats_input.
  rewrite Hj.
  erewrite bind_raise.
  2: { erewrite bind_ok by exact Hload.
       erewrite bind_ok by (unfold lift; rewrite Hv; reflexivity).
       erewrite bind_raise; [reflexivity |].
       unfold os_remove. simpl fs. rewrite lookup_insert_eq, Hrm. reflexivity. }
  simpl. split; [reflexivity | apply lookup_insert_eq].
Qed.

(** X10.  The numbers of the query string are parsed before the body is
    looked at, in the order the handler reads them: when one does not parse,
    POST /mesh answers with the parse error and the world is untouched.  In
    the trimesh service an alpha that does not parse is an error even when
    radius_multiplier would replace it. *)
Theorem bad_query_rejected_first :
  (forall rq file_id w s e,
      args_lookup "radius_multiplier" (args rq) = Some s -> py_float s = Raise e ->
      App.create_mesh rq file_id w = (error_response e, w))
  /\ (forall rq file_id w s e,
        match args_lookup "radius_multiplier" (args rq) with
        | Some s' => exists q, py_float s' = Ok q
        | None => True
        end ->
        args_lookup "num_radii" (args rq) = Some s -> py_int s = Raise e ->
        App.create_mesh rq file_id w = (error_response e, w))
  /\ (forall rq file_id w s e,
        args_lookup "alpha" (args rq) = Some s -> py_float s = Raise e ->
        AppTrimesh.create_mesh rq file_id w = (error_response e, w))
  /\ (forall rq file_id w s e,
        match args_lookup "alpha" (args rq) with
        | Some s' => exists q, py_float s' = Ok q
        | None => True
        end ->
        args_lookup "radius_multiplier" (args rq) = Some s -> py_float s = Raise e ->
        AppTrimesh.create_mesh rq file_id w = (error_response e, w)).
Proof.
  assert (Ho : forall rq file_id w e,
             App.query_params rq = Raise e ->
             App.create_mesh rq file_id w = (error_response e, w)).
  { intros rq file_id w e Hq.
    unfold App.create_mesh, App.create_mesh_body, handler.
    erewrite bind_raise by (unfold lift; rewrite Hq; reflexivity). reflexivity. }
  assert (Ht : forall rq file_id w e,
             AppTrimesh.query_alpha rq = Raise e ->
             AppTrimesh.create_mesh rq file_id w = (error_response e, w)).
  { intros rq file_id w e Hq.
    unfold AppTrimesh.create_mesh, AppTrimesh.create_mesh_body, handler.
    erewrite bind_raise by (unfold lift; rewrite Hq; reflexivity). reflexivity. }
  repeat split.
  - intros rq file_id w s e Hs He. apply Ho.
    unfold App.query_params. now rewrite Hs, He.
  - intros rq file_id w s e Hr Hs He. apply Ho.
    unfold App.query_params. rewrite Hs, He.
    destruct (args_lookup "radius_multiplier" (args rq)); [destruct Hr as (q & ->) |];
      reflexivity.
  - intros rq file_id w s e Hs He. apply Ht.
    unfold AppTrimesh.query_alpha. now rewrite Hs, He.
  - intros rq file_id w s e Ha Hs He. apply Ht.
    unfold AppTrimesh.query_alpha. rewrite Hs, He.
    destruct (args_lookup "alpha" (args rq)); [destruct Ha as (q & ->) |]; reflexivity.
Qed.

End MoreProperties.

(** ** Lists of points *)

Section MapM.
Context {A B : Type}.

Lemma mapM_length (f : A -> res B) l l' : Py.mapM f l = Ok l' -> length l' = length l.
Proof.
  revert l'. induction l as [| x l IH]; intros l'; simpl.
  - now intros [= <-].
  - destruct (f x) as [y | e]; simpl; [| discriminate].
    destruct (Py.mapM f l) as [ys | e]; simpl; [| discriminate].
    intros [= <-]. simpl. f_equal. now apply IH.
Qed.

Lemma mapM_raise (f : A -> res B) l x :
  In x l -> (forall y, f x <> Ok y) -> exists e, Py.mapM f l = Raise e.
Proof.
  intros Hin Hx. induction l as [| a l IH]; [destruct Hin |]. simpl.
  destruct (f a) as [y | e] eqn:Ea; simpl; [| eauto].
  destruct Hin as [-> | Hin]; [now apply Hx in Ea |].
  destruct (IH Hin) as (e & ->). simpl. eauto.
Qed.

Lemma mapM_related {C} (f : A -> res B) (g : A -> res C) (R : A -> B -> C -> Prop) l l' :
  (forall x y, f x = Ok y -> exists z, g x = Ok z /\ R x y z) ->
  Py.mapM f l = Ok l' ->
  exists l'', Py.mapM g l = Ok l'' /\ Forall2 (fun x yz => R x (fst yz) (snd yz)) l (combine l' l'')
              /\ length l'' = length l.
Proof.
  intros Hfg. revert l'. induction l as [| x l IH]; intros l'; simpl.
  - intros [= <-]. exists []. repeat split. constructor.
  - destruct (f x) as [y | e] eqn:Ex; simpl; [| discriminate].
    destruct (Py.mapM f l) as [ys | e]; simpl; [| discriminate].
    intros [= <-]. destruct (Hfg _ _ Ex) as (z & -> & Hr).
    destruct (IH _ eq_refl) as (zs & -> & Hall & Hlen). simpl.
    exists (z :: zs). repeat split; [| simpl; now f_equal].
    constructor; assumption.
Qed.

End MapM.

Section Points.
Context {H : Host} {O : App.Open3D} {T : AppTrimesh.Trimesh}.

Lemma point_row_ok p coords colors :
  App.point_row p = Ok (coords, colors) ->
  exists items x y z,
    p = JObj items
    /\ py_getitem p "x" = Ok x /\ py_getitem p "y" = Ok y /\ py_getitem p "z" = Ok z
    /\ coords = [x; y; z].
Proof.
  unfold App.point_row, rbind.
  destruct (py_getitem p "x") as [x | e] eqn:Ex; [| discriminate].
  destruct (py_getitem p "y") as [y | e]; [| discriminate].
  destruct (py_getitem p "z") as [z | e]; [| discriminate].
  destruct (App.normalize_channel p "r"); [| discriminate].
  destruct (App.normalize_channel p "g"); [| discriminate].
  destruct (App.normalize_channel p "b"); [| discriminate].
  intros [= <- <-].
  destruct p; try discriminate. eauto 10.
Qed.

Lemma json_to_ply_rows json_data d items path w :
  load_data json_data = Ok (JObj d) ->
  dict_lookup "points" d = Some (JArr items) ->
  items <> [] ->
  App.json_to_ply json_data path w
  = (rows <- lift (Py.mapM App.point_row items) ;;
     cloud <- lift (App.point_cloud_of (map fst rows) (map snd rows)) ;;
     App.library_write path (App.write_point_cloud path cloud) ;;;
     ret tt) w.
Proof.
  intros Hd Hp Hne. unfold App.json_to_ply.
  erewrite bind_ok by (unfold lift; rewrite Hd; reflexivity).
  erewrite bind_ok by (unfold lift, py_get, dict_get; rewrite Hp; reflexivity).
  destruct items as [| p items]; [contradiction |]. cbn [truthy negb].
  erewrite bind_ok by reflexivity. reflexivity.
Qed.

Lemma json_to_numpy_rows json_data d items :
  load_data json_data = Ok (JObj d) ->
  dict_lookup "points" d = Some (JArr items) ->
  items <> [] ->
  AppTrimesh.json_to_numpy json_data
  = (let? rows := Py.mapM (fun p => let? x := py_getitem p "x" in
                                    let? y := py_getitem p "y" in
                                    let? z := py_getitem p "z" in
                                    Ok [x; y; z]) items in
     let? coords := AppTrimesh.np_array rows in
     let? rgb := Py.mapM (fun p => let? r := py_get p "r" (JInt 128) in
                                   let? g := py_get p "g" (JInt 128) in
                                   let? b := py_get p "b" (JInt 128) in
                                   Ok [r; g; b]) items in
     let? colors := AppTrimesh.np_array_uint8 rgb in
     Ok (coords, colors)).
Proof.
  intros Hd Hp Hne. unfold AppTrimesh.json_to_numpy. rewrite Hd. cbn [rbind py_get].
  unfold dict_get. rewrite Hp.
  destruct items as [| p items]; [contradiction |]. reflexivity.
Qed.

(** X11.  One point without a readable x, y or z coordinate makes both JSON
    conversions raise, whatever the other points are; [json_to_ply] then has
    written nothing. *)
Theorem malformed_point_rejects_cloud :
  forall json_data d items p key path w,
    load_data json_data = Ok (JObj d) ->
    dict_lookup "points" d = Some (JArr items) ->
    In p items ->
    In key ["x"; "y"; "z"] ->
    (forall v, py_getitem p key <> Ok v) ->
    (exists e, App.json_to_ply json_data path w = (Raise e, w))
    /\ (exists e, AppTrimesh.json_to_numpy json_data = Raise e).
Proof.
  intros json_data d items p key path w Hd Hp Hin Hkey Hbad.
  assert (Hne : items <> []) by (intros ->; destruct Hin).
  split.
  - rewrite (json_to_ply_rows _ _ _ _ _ Hd Hp Hne).
    destruct (mapM_raise App.point_row items p Hin) as (e & He).
    { intros [coords colors] Hrow.
      destruct (point_row_ok _ _ _ Hrow) as (its & x & y & z & _ & Hx & Hy & Hz & _).
      simpl in Hkey.
      destruct Hkey as [<- | [<- | [<- | []]]]; eapply Hbad; eassumption. }
    exists e. erewrite bind_raise by (unfold lift; rewrite He; reflexivity). reflexivity.
  - rewrite (json_to_numpy_rows _ _ _ Hd Hp Hne).
    match goal with
    | |- context [Py.mapM ?f items] =>
        destruct (mapM_raise f items p Hin) as (e & He)
    end.
    { intros row. unfold rbind.
      destruct (py_getitem p "x") as [x | ex] eqn:Ex; [| discriminate].
      destruct (py_getitem p "y") as [y | ey] eqn:Ey; [| discriminate].
      destruct (py_getitem p "z") as [z | ez] eqn:Ez; [| discriminate].
      simpl in Hkey.
      destruct Hkey as [<- | [<- | [<- | []]]]; exfalso; eapply Hbad; eassumption. }
    exists e. rewrite He. reflexivity.
Qed.

(** X12.  When [json_to_ply] accepts the points of a body, [json_to_numpy]
    hands the same coordinate rows to its library, and as colours the r, g
    and b entries as they are in the body (128 where absent), not the
    normalised ones. *)
Theorem conversions_agree_on_coordinates :
  forall json_data d items rows,
    load_data json_data = Ok (JObj d) ->
    dict_lookup "points" d = Some (JArr items) ->
    items <> [] ->
    Py.mapM App.point_row items = Ok rows ->
    exists raw,
      Forall2 (fun p c => exists entries,
                   p = JObj entries
                   /\ c = [dict_get entries "r" (JInt 128);
                           dict_get entries "g" (JInt 128);
                           dict_get entries "b" (JInt 128)]) items raw
      /\ AppTrimesh.json_to_numpy json_data
         = (let? coords := AppTrimesh.np_array (map fst rows) in
            let? colors := AppTrimesh.np_array_uint8 raw in
            Ok (coords, colors)).
Proof.
  intros json_data d items rows Hd Hp Hne Hrows.
  rewrite (json_to_numpy_rows _ _ _ Hd Hp Hne). clear Hd Hp Hne.
  assert (Hxyz : Py.mapM (fun p => let? x := py_getitem p "x" in
                                   let? y := py_getitem p "y" in
                                   let? z := py_getitem p "z" in
                                   Ok [x; y; z]) items = Ok (map fst rows)
                 /\ exists raw,
                      Py.mapM (fun p => let? r := py_get p "r" (JInt 128) in
                                        let? g := py_get p "g" (JInt 128) in
                                        let? b := py_get p "b" (JInt 128) in
                                        Ok [r; g; b]) items = Ok raw
                      /\ Forall2 (fun p c => exists entries,
                                      p = JObj entries
                                      /\ c = [dict_get entries "r" (JInt 128);
                                              dict_get entries "g" (JInt 128);
                                              dict_get entries "b" (JInt 128)]) items raw).
  { revert rows Hrows. induction items as [| p items IH]; intros rows; simpl.
    - intros [= <-]. split; [reflexivity |]. exists []. split; [reflexivity | constructor].
    - destruct (App.point_row p) as [[coords colors] | e] eqn:Ep; simpl; [| discriminate].
      destruct (Py.mapM App.point_row items) as [rest | e]; simpl; [| discriminate].
      intros [= <-].
      destruct (point_row_ok _ _ _ Ep) as (its & x & y & z & -> & Hx & Hy & Hz & ->).
      destruct (IH _ eq_refl) as (IHx & raw & IHc & IHf).
      rewrite Hx, Hy, Hz, IHx. cbn [rbind py_get]. rewrite IHc. cbn [rbind].
      split; [reflexivity |].
      eexists. split; [reflexivity |]. constructor; [eauto | exact IHf]. }
  destruct Hxyz as (-> & raw & -> & Hf). cbn [rbind].
  exists raw. split; [exact Hf | reflexivity].
Qed.

(** X13.  In both JSON conversions "points" has to be a list and the body an
    object: a true value that is not a list raises a TypeError, a body that
    is not an object raises an AttributeError, the same in both services,
    and [json_to_ply] has written nothing. *)
Theorem points_must_be_a_list :
  (forall json_data d points path w,
      load_data json_data = Ok (JObj d) ->
      dict_lookup "points" d = Some points ->
      truthy points = true ->
      (forall l, points <> JArr l) ->
      exists msg,
        App.json_to_ply json_data path w = (Raise (TypeError msg), w)
        /\ AppTrimesh.json_to_numpy json_data = Raise (TypeError msg))
  /\ (forall json_data body path w,
        load_data json_data = Ok body ->
        (forall d, body <> JObj d) ->
        let e := AttributeError ("'" ++ type_name body ++ "' object has no attribute 'get'") in
        App.json_to_ply json_data path w = (Raise e, w)
        /\ AppTrimesh.json_to_numpy json_data = Raise e).
Proof.
  split.
  - intros json_data d points path w Hd Hp Ht Hl.
    unfold App.json_to_ply, AppTrimesh.json_to_numpy.
    erewrite bind_ok by (unfold lift; rewrite Hd; reflexivity).
    erewrite bind_ok by (unfold lift, py_get, dict_get; rewrite Hp; reflexivity).
    rewrite Hd. cbn [rbind py_get]. unfold dict_get. rewrite Hp, Ht. cbn [negb].
    destruct points as [| b | z | q | s | l | entries];
      try discriminate; try (now exfalso; eapply Hl).
    + eexists. split; reflexivity.
    + eexists. split; reflexivity.
    + eexists. split; reflexivity.
    + destruct s as [| c s]; [discriminate |]. eexists. split; reflexivity.
    + destruct entries as [| [k v] entries]; [discriminate |]. eexists. split; reflexivity.
  - intros json_data body path w Hd Hb e. subst e.
    unfold App.json_to_ply, AppTrimesh.json_to_numpy.
    erewrite bind_ok by (unfold lift; rewrite Hd; reflexivity).
    rewrite Hd. cbn [rbind].
    destruct body; try (now exfalso; eapply Hb); split; reflexivity.
Qed.

(** X14.  [json_to_ply] compares every colour channel with 1: a channel that
    is present and is not a number (null, a string, a list, an object) raises
    a TypeError naming its type, and a point with x, y, z and such a channel
    is rejected: with a TypeError, unless an earlier channel is an [int]
    beyond the doubles, whose OverflowError comes first. *)
Theorem non_numeric_channel_rejected :
  forall entries key v,
    dict_lookup key entries = Some v ->
    as_number v = None ->
    App.normalize_channel (JObj entries) key
    = Raise (TypeError ("'>' not supported between instances of '"
                          ++ type_name v ++ "' and 'int'"))
    /\ (In key ["r"; "g"; "b"] ->
        forall x y z,
          dict_lookup "x" entries = Some x -> dict_lookup "y" entries = Some y ->
          dict_lookup "z" entries = Some z ->
          (exists e, App.point_row (JObj entries) = Raise e
                     /\ ((exists msg, e = TypeError msg)
                         \/ e = OverflowError "int too large to convert to float"))
          /\ ((forall k, In k ["r"; "g"; "b"] ->
                         int_beyond_float (dict_get entries k (JInt 128)) = false) ->
              exists msg, App.point_row (JObj entries) = Raise (TypeError msg))).
Proof.
  intros entries key v Hv Hn.
  assert (Hch : App.normalize_channel (JObj entries) key
                = Raise (TypeError ("'>' not supported between instances of '"
                                      ++ type_name v ++ "' and 'int'"))).
  { unfold App.normalize_channel, py_get, dict_get. cbn [rbind]. rewrite Hv.
    unfold py_gt_1. rewrite Hn. reflexivity. }
  split; [exact Hch |].
  assert (Hany : forall k, exists r,
             App.normalize_channel (JObj entries) k = r
             /\ ((exists msg, r = Raise (TypeError msg))
                 \/ (r = Raise (OverflowError "int too large to convert to float")
                     /\ int_beyond_float (dict_get entries k (JInt 128)) = true)
                 \/ exists c, r = Ok c)).
  { intros k. eexists. split; [reflexivity |].
    unfold App.normalize_channel, py_get. cbn [rbind]. unfold py_gt_1, py_div_255.
    destruct (as_number (dict_get entries k (JInt 128))) as [q |] eqn:Eq;
      [| left; eexists; reflexivity].
    cbn [rbind]. destruct (negb (Qle_bool q 1)); [| eauto].
    cbn [rbind].
    destruct (int_beyond_float (dict_get entries k (JInt 128))); eauto. }
  intros Hkey x y z Hx Hy Hz.
  assert (Hrow : forall P : exn -> Prop,
             (forall msg, P (TypeError msg)) ->
             (forall k, In k ["r"; "g"; "b"] ->
                        int_beyond_float (dict_get entries k (JInt 128)) = true ->
                        P (OverflowError "int too large to convert to float")) ->
             exists e, App.point_row (JObj entries) = Raise e /\ P e).
  { intros P Htype Hover. unfold App.point_row. cbn [py_getitem].
    rewrite Hx, Hy, Hz. cbn [rbind].
    destruct (Hany "r") as (r & Er & [(m & ->) | [(-> & Hr) | (c & ->)]]);
      rewrite Er; cbn [rbind];
      [eauto | eexists; split; [reflexivity | apply (Hover "r"); simpl; auto] |].
    destruct (Hany "g") as (g & Eg & [(m & ->) | [(-> & Hg) | (c' & ->)]]);
      rewrite Eg; cbn [rbind];
      [eauto | eexists; split; [reflexivity | apply (Hover "g"); simpl; auto] |].
    destruct (Hany "b") as (b & Eb & [(m & ->) | [(-> & Hb) | (c'' & ->)]]);
      rewrite Eb; cbn [rbind];
      [eauto | eexists; split; [reflexivity | apply (Hover "b"); simpl; auto] |].
    exfalso. simpl in Hkey. destruct Hkey as [<- | [<- | [<- | []]]]; congruence. }
  split.
  - apply Hrow; [eauto | auto].
  - intros Hfit.
    destruct (Hrow (fun e => exists msg, e = TypeError msg)) as (e & He & msg & ->);
      [eauto | | eauto].
    intros k Hk Hbig. rewrite (Hfit k Hk) in Hbig. discriminate.
Qed.

End Points.

(** ** The distance sample of the trimesh /mesh/stats *)

Section Sampling.

Lemma range_step_length stop step :
  length (AppTrimesh.range_step stop step) = Z.to_nat ((stop + step - 1) / step).
Proof. unfold AppTrimesh.range_step. now rewrite length_map, length_seq. Qed.

Lemma range_step_bounds stop step :
  0 < step -> Forall (fun i => 0 <= i < stop) (AppTrimesh.range_step stop step).
Proof.
  intros Hs. apply List.Forall_forall. intros i Hi.
  unfold AppTrimesh.range_step in Hi. apply in_map_iff in Hi.
  destruct Hi as (k & <- & Hk). apply in_seq in Hk.
  pose proof (Z.mul_div_le (stop + step - 1) step Hs) as Hle.
  set (L := (stop + step - 1) / step) in *.
  assert (Hk' : Z.of_nat k <= L - 1) by lia.
  split; [lia |].
  assert (Z.of_nat k * step <= (L - 1) * step)
    by (apply Z.mul_le_mono_nonneg_r; lia).
  lia.
Qed.

(** The number of indices [get_mesh_stats] visits in a cloud of [n] points. *)
Lemma sample_count n :
  0 < n ->
  let step := Z.max 1 (n / Z.min 100 n) in
  0 < step /\ Z.min 100 n <= (n + step - 1) / step < 200.
Proof.
  intros Hn step. subst step.
  destruct (Z_le_gt_dec n 100) as [Hle | Hgt].
  - rewrite Z.min_r by lia. rewrite Z_div_same_full by lia.
    rewrite Z.max_id. replace (n + 1 - 1) with n by lia. rewrite Z.div_1_r. lia.
  - rewrite Z.min_l by lia.
    pose proof (Z.mul_div_le n 100 ltac:(lia)) as Hlo.
    pose proof (Z.mul_succ_div_gt n 100 ltac:(lia)) as Hhi.
    set (q := n / 100) in *.
    assert (Hq : 1 <= q) by lia.
    rewrite Z.max_r by lia. split; [lia |]. split.
    + apply Z.div_le_lower_bound; lia.
    + apply Z.div_lt_upper_bound; lia.
Qed.

End Sampling.

Section Statistics.
Context {H : Host} {O : App.Open3D} {T : AppTrimesh.Trimesh}.

(** X15.  POST /mesh/stats of the trimesh service averages the
    nearest-neighbour distance over a sample: for a cloud of n > 0 points it
    visits at least min(100, n) and fewer than 200 indices, all of them
    inside the cloud; for a cloud without points the step computation divides
    by zero and the request is answered with ZeroDivisionError. *)
Theorem stats_sample_size :
  (forall coords n distances,
      AppTrimesh.np_len coords = Ok n -> 0 < n ->
      AppTrimesh.sample_distances coords = Ok distances ->
      Z.min 100 n <= Z.of_nat (length distances) < 200)
  /\ (forall n, 0 < n ->
        Forall (fun i => 0 <= i < n)
               (AppTrimesh.range_step n (Z.max 1 (n / Z.min 100 n))))
  /\ (forall rq file_id w coords tree w1,
        AppTrimesh.get_mesh_stats_input rq file_id w = (Ok coords, w1) ->
        AppTrimesh.cKDTree coords = Ok tree ->
        AppTrimesh.np_len coords = Ok 0 ->
        AppTrimesh.get_mesh_stats rq file_id w
        = (error_response AppTrimesh.ZeroDivisionError, w1)).
Proof.
  split; [| split].
  - intros coords n distances Hlen Hn.
    destruct (sample_count n Hn) as (Hstep & Hcount).
    unfold AppTrimesh.sample_distances, rbind.
    destruct (AppTrimesh.cKDTree coords) as [tree | e]; [| discriminate].
    rewrite Hlen. unfold AppTrimesh.floordiv.
    destruct (Z.eqb_spec (Z.min 100 n) 0) as [H0 | _]; [lia |].
    intros Hm. apply mapM_length in Hm. rewrite Hm, range_step_length. lia.
  - intros n Hn. apply range_step_bounds. now destruct (sample_count n Hn).
  - intros rq file_id w coords tree w1 Hi Ht Hlen.
    unfold AppTrimesh.get_mesh_stats, AppTrimesh.get_mesh_stats_body, handler.
    erewrite bind_ok by exact Hi.
    erewrite bind_raise; [reflexivity |].
    unfold lift, AppTrimesh.sample_distances. rewrite Ht, Hlen. reflexivity.
Qed.

(** X16.  When [reconstruct_mesh_ball_pivoting] returns its statistics, the
    cloud it read had points, exactly one Ball Pivoting call was made and
    returned, its radii are the reported [radii_used], computed from the
    reported average distance, and the clock was read twice. *)
Theorem ball_pivoting_stats_consistent :
  forall input_path out_path ps w st w',
    App.reconstruct_mesh_ball_pivoting input_path out_path ps w = (Ok st, w') ->
    App.radii_used st
    = App.ball_radii (App.avg_point_distance st)
                     (default (3 # 2)%Q (App.radius_multiplier ps))
                     (default 2 (App.num_radii ps))
    /\ calls w' = (calls w ++ [(BallPivoting (App.radii_used st), None)])%list
    /\ ticks w' = S (S (ticks w))
    /\ exists cloud,
         App.read_point_cloud input_path (fs w !! input_path) = Ok cloud
         /\ App.has_points cloud = true
         /\ App.num_input_points st = App.len_points cloud.
Proof.
  intros input_path out_path ps w st w'.
  unfold App.reconstruct_mesh_ball_pivoting, App.mean_distance, App.library_write,
    App.read_file.
  intros E. run; try discriminate.
  all: repeat split; try reflexivity.
  all: eexists; repeat split; try reflexivity;
    match goal with
    | E : negb (App.has_points _) = false |- _ => now apply negb_false_iff in E
    end.
Qed.

(** X17.  When [reconstruct_mesh_alpha_shape] returns, its statistics report
    the number of input points and, as [alpha_used], the alpha it was given,
    also when the mesh is the convex hull of the fallback; the alpha-shape
    call is the first entry it added to the log, and the clock was read
    twice. *)
Theorem alpha_shape_stats_consistent :
  forall coords colors alpha w m st w',
    AppTrimesh.reconstruct_mesh_alpha_shape coords colors alpha w = (Ok (m, st), w') ->
    AppTrimesh.alpha_used st = alpha
    /\ AppTrimesh.np_len coords = Ok (AppTrimesh.num_input_points st)
    /\ ticks w' = S (S (ticks w))
    /\ exists o rest, calls w' = (calls w ++ (AlphaShape alpha, o) :: rest)%list
                      /\ (rest = [] \/ rest = [(ConvexHull, None)]).
Proof.
  intros coords colors alpha w m st w'.
  unfold AppTrimesh.reconstruct_mesh_alpha_shape.
  unfold bind at 1, lift at 1. destruct (AppTrimesh.np_len coords) as [n | e]; [| discriminate].
  unfold bind at 1, now at 1.
  unfold bind at 1, lift at 1.
  destruct (AppTrimesh.compute_normals coords n) as [ns | e]; [| discriminate].
  unfold bind at 1.
  destruct (AppTrimesh.alpha_shape_or_hull coords alpha _) as [rm w1] eqn:Ea.
  apply AppTrimeshFacts.alpha_shape_or_hull_effect in Ea. simpl in Ea.
  destruct Ea as (_ & _ & Htk & Hcalls).
  destruct rm as [m0 | e]; [| discriminate].
  intros E. run.
  repeat split; [now rewrite Htk |].
  destruct Hcalls as [(-> & _) | (-> & Hr & _)].
  - exists None, []. split; [reflexivity | now left].
  - eexists _, [(ConvexHull, None)]. split; [reflexivity | now right].
Qed.

End Statistics.

Section Conversion.
Context {H : Host} {O : App.Open3D} {T : AppTrimesh.Trimesh}.

(** X18.  [json_to_ply] on a body whose points are all well formed, once
    Open3D has built the cloud: the file is written with what
    [write_point_cloud] produced; when the library reports that it wrote
    nothing, [json_to_ply] still returns normally, with the world unchanged. *)
Theorem json_to_ply_writes_cloud :
  forall json_data d items rows cloud path w,
    load_data json_data = Ok (JObj d) ->
    dict_lookup "points" d = Some (JArr items) ->
    items <> [] ->
    Py.mapM App.point_row items = Ok rows ->
    App.point_cloud_of (map fst rows) (map snd rows) = Ok cloud ->
    length rows = length items
    /\ (forall body,
          App.write_point_cloud path cloud = Ok (Some body) ->
          App.json_to_ply json_data path w
          = (Ok tt, World (<[path := body]> (fs w)) (written w ++ [path])
                          (calls w) (ticks w)))
    /\ (App.write_point_cloud path cloud = Ok None ->
        App.json_to_ply json_data path w = (Ok tt, w)).
Proof.
  intros json_data d items rows cloud path w Hd Hp Hne Hrows Hcloud.
  split; [now apply mapM_length in Hrows |].
  assert (Hrun : App.json_to_ply json_data path w
                 = (App.library_write path (App.write_point_cloud path cloud) ;;; ret tt) w).
  { rewrite (json_to_ply_rows _ _ _ _ _ Hd Hp Hne).
    erewrite bind_ok by (unfold lift; rewrite Hrows; reflexivity).
    erewrite bind_ok by (unfold lift; rewrite Hcloud; reflexivity).
    reflexivity. }
  rewrite Hrun. unfold App.library_write, bind, lift, ret, store.
  split; [intros body Hw | intros Hw]; rewrite Hw; [reflexivity |].
  destruct w. reflexivity.
Qed.

End Conversion.

(** ** Normal estimation *)

Section Normals.
Context {H : Host} {O : App.Open3D} {T : AppTrimesh.Trimesh}.

(** X19.  [reconstruct_mesh_alpha_shape] estimates a normal for every point
    before it builds the mesh, and never uses the normals afterwards; yet
    when the estimate fails for one point the whole reconstruction raises,
    after one reading of the clock and before any alpha-shape or convex-hull
    call. *)
Theorem normals_failure_aborts_reconstruction :
  forall coords colors alpha w n tree points p,
    AppTrimesh.np_len coords = Ok n ->
    AppTrimesh.PointCloud coords = Ok tt ->
    AppTrimesh.cKDTree coords = Ok tree ->
    AppTrimesh.np_iter coords = Ok points ->
    In p points ->
    (forall normal, AppTrimesh.pca_normal coords tree n p <> Ok normal) ->
    exists e,
      AppTrimesh.reconstruct_mesh_alpha_shape coords colors alpha w
      = (Raise e, World (fs w) (written w) (calls w) (S (ticks w))).
Proof.
  intros coords colors alpha w n tree points p Hlen Hpc Htree Hiter Hin Hbad.
  destruct (mapM_raise (AppTrimesh.pca_normal coords tree n) points p Hin Hbad) as (e & He).
  exists e. unfold AppTrimesh.reconstruct_mesh_alpha_shape.
  erewrite bind_ok by (unfold lift; rewrite Hlen; reflexivity).
  erewrite bind_ok by reflexivity.
  erewrite bind_raise; [reflexivity |].
  unfold lift, AppTrimesh.compute_normals. rewrite Hpc, Htree, Hiter. cbn [rbind].
  rewrite He. reflexivity.
Qed.

(** X20.  With the parameters POST /mesh passes (estimate_normals on, no
    normal_radius, no normal_max_nn), [reconstruct_mesh_ball_pivoting] asks
    Open3D for normals within twice the average neighbour distance and at
    most 30 neighbours, whether the cloud has normals or not; when that call
    raises, the reconstruction raises the same exception, nothing is written
    and no Ball Pivoting call is made. *)
Theorem normal_estimation_parameters :
  forall input_path out_path rm nr w cloud distances avg e,
    App.read_point_cloud input_path (fs w !! input_path) = Ok cloud ->
    App.has_points cloud = true ->
    App.compute_nearest_neighbor_distance cloud = Ok distances ->
    np_mean distances = Ok avg ->
    App.estimate_normals cloud (avg * 2) 30 = Raise e ->
    App.reconstruct_mesh_ball_pivoting
      input_path out_path (App.Params rm nr (Some true) None None) w
    = (Raise e, w).
Proof.
  intros input_path out_path rm nr w cloud distances avg e Hread Hpts Hd Hm He.
  unfold App.reconstruct_mesh_ball_pivoting. cbn [App.p_estimate_normals
    App.normal_radius App.normal_max_nn default from_option id].
  erewrite bind_ok by reflexivity.
  erewrite bind_ok by (unfold lift; rewrite Hread; reflexivity).
  rewrite Hpts. cbn [negb orb].
  erewrite bind_raise; [reflexivity |].
  erewrite bind_ok.
  2: { erewrite bind_ok.
       2: { unfold App.mean_distance.
            erewrite bind_ok by (unfold lift; rewrite Hd; reflexivity).
            unfold lift. rewrite Hm. reflexivity. }
       reflexivity. }
  erewrite bind_raise by (unfold lift; rewrite He; reflexivity). reflexivity.
Qed.

End Normals.

(** ** The further properties at explicit requests *)

Section MoreExamples.
Import Example.
#[local] Existing Instances host open3d trimesh.

(** X2 on a JSON request of four points. *)
Lemma upload_deleted_after_success_witness :
  fs (snd (App.create_mesh (json_request [] four_points) file_id empty_world))
     !! upload_path file_id "ply" = None
  /\ is_Some (fs (snd (App.create_mesh (json_request [] four_points) file_id empty_world))
                 !! output_path file_id "ply").
Proof.
  pose (rq := json_request [] four_points).
  pose (ps := App.Params (Some (3 # 2)%Q) (Some 2) (Some true) None None).
  pose (w1 := snd (App.save_input rq file_id empty_world)).
  pose (run := App.reconstruct_mesh_ball_pivoting
                 (upload_path file_id "ply") (output_path file_id "ply") ps w1).
  pose (st := match fst run with
              | Ok st => st
              | Raise _ => App.Stats 0 0 0 0 [] 0
              end).
  assert (Hthm := upload_deleted_after_success rq file_id empty_world ps
                    (upload_path file_id "ply") w1 st (snd run)).
  destruct Hthm as (Hup & _ & Hout); [vm_compute; reflexivity .. |].
  split; [exact Hup | exact Hout].
Defined.

(** X5 on a binary upload of two points. *)
Lemma stats_of_cloud_witness :
  exists avg,
    fst (App.get_mesh_stats (binary_request [] ["a"; "b"]%byte) file_id empty_world)
    = Jsonify 200 (JObj [("num_points", JInt 2);
                         ("avg_point_distance", JFloat avg);
                         ("suggested_radius", JFloat (avg * (3 # 2)));
                         ("has_normals", JBool false);
                         ("has_colors", JBool true)]).
Proof.
  pose (rq := binary_request [] ["a"; "b"]%byte).
  pose (w1 := snd (App.save_input rq file_id empty_world)).
  pose (avg := match np_mean [(1 # 10)%Q; (1 # 10)%Q] with
               | Ok a => a
               | Raise _ => 0%Q
               end).
  exists avg.
  refine (proj1 (stats_of_cloud rq file_id empty_world (upload_path file_id "ply") w1
                   (2, false) [(1 # 10)%Q; (1 # 10)%Q] avg _ _ _ _));
    vm_compute; reflexivity.
Defined.

(** X6 on a JSON request of four points. *)
Lemma trimesh_json_needs_no_upload_witness :
  snd (AppTrimesh.get_mesh_stats (json_request [] four_points) file_id empty_world)
  = empty_world.
Proof.
  refine (proj1 (trimesh_json_needs_no_upload (json_request [] four_points)
                   file_id empty_world _)).
  reflexivity.
Defined.

(** X7 on a binary upload of two points. *)
Lemma trimesh_upload_removed_witness :
  fs (snd (AppTrimesh.get_mesh_stats (binary_request [] ["a"; "b"]%byte)
                                     file_id empty_world)) = ∅.
Proof.
  pose (rq := binary_request [] ["a"; "b"]%byte).
  pose (body := match fst (AppTrimesh.get_mesh_stats rq file_id empty_world) with
                | Jsonify _ b => b
                | _ => JNull
                end).
  refine (proj2 (proj1 (trimesh_upload_removed_on_success rq file_id empty_world _)
                       body _) _);
    [reflexivity | vm_compute; reflexivity | reflexivity].
Defined.

(** X8 on an empty binary upload, with a library that cannot load it. *)
Lemma trimesh_upload_kept_witness :
  fst (@AppTrimesh.get_mesh_stats host strict_trimesh (binary_request [] [])
                                  file_id empty_world)
  = error_response (ValueError "File is empty")
  /\ fs (snd (@AppTrimesh.get_mesh_stats host strict_trimesh (binary_request [] [])
                                         file_id empty_world))
        !! upload_path file_id "ply" = Some [].
Proof.
  refine (proj1 (@trimesh_upload_kept_when_load_fails host strict_trimesh
                   (binary_request [] []) file_id empty_world
                   (ValueError "File is empty") _ _ _));
    reflexivity.
Defined.

(** X9 on a binary upload of two points, on a host that removes no file. *)
Lemma trimesh_remove_failure_witness :
  fst (@AppTrimesh.get_mesh_stats locked_host trimesh (binary_request [] ["a"; "b"]%byte)
                                  file_id empty_world)
  = error_response (Exn "PermissionError" "[Errno 13] Permission denied")
  /\ fs (snd (@AppTrimesh.get_mesh_stats locked_host trimesh
                (binary_request [] ["a"; "b"]%byte) file_id empty_world))
        !! upload_path file_id "ply" = Some ["a"; "b"]%byte.
Proof.
  refine (@trimesh_remove_failure_reported locked_host trimesh
            (binary_request [] ["a"; "b"]%byte) file_id empty_world
            [[JInt 0; JInt 0; JInt 0]; [JInt 0; JInt 0; JInt 0]]
            [[JInt 0; JInt 0; JInt 0]; [JInt 0; JInt 0; JInt 0]]
            (Exn "PermissionError" "[Errno 13] Permission denied") _ _ _ _ _);
    reflexivity.
Defined.

(** X10 on alpha=abc with radius_multiplier=2. *)
Lemma bad_query_rejected_first_witness :
  AppTrimesh.create_mesh
    (json_request [("alpha", "abc"); ("radius_multiplier", "2")] four_points)
    file_id empty_world
  = (error_response (ValueError "could not convert string to float: 'abc'"), empty_world).
Proof.
  refine (proj1 (proj2 (proj2 bad_query_rejected_first))
            (json_request [("alpha", "abc"); ("radius_multiplier", "2")] four_points)
            file_id empty_world "abc"
            (ValueError "could not convert string to float: 'abc'") _ _);
    reflexivity.
Defined.

(** X11 on two points, the second without x. *)
Lemma malformed_point_rejects_cloud_witness :
  (exists e, App.json_to_ply (JObj [("points", JArr [point 0 0 0; point_without_x])])
                             (upload_path file_id "ply") empty_world
             = (Raise e, empty_world))
  /\ (exists e, AppTrimesh.json_to_numpy
                  (JObj [("points", JArr [point 0 0 0; point_without_x])]) = Raise e).
Proof.
  refine (malformed_point_rejects_cloud
            (JObj [("points", JArr [point 0 0 0; point_without_x])])
            [("points", JArr [point 0 0 0; point_without_x])]
            [point 0 0 0; point_without_x] point_without_x "x"
            (upload_path file_id "ply") empty_world _ _ _ _ _);
    [reflexivity | reflexivity | right; left; reflexivity | left; reflexivity
    | intros v; discriminate].
Defined.

(** X12 on one point with r = 200. *)
Lemma conversions_agree_witness :
  exists raw,
    Forall2 (fun p c => exists entries,
                 p = JObj entries
                 /\ c = [dict_get entries "r" (JInt 128);
                         dict_get entries "g" (JInt 128);
                         dict_get entries "b" (JInt 128)])
            [JObj [("x", JInt 1); ("y", JInt 2); ("z", JInt 3); ("r", JInt 200)]] raw
    /\ AppTrimesh.json_to_numpy
         (JObj [("points",
                 JArr [JObj [("x", JInt 1); ("y", JInt 2); ("z", JInt 3); ("r", JInt 200)]])])
       = (let? coords := AppTrimesh.np_array [[JInt 1; JInt 2; JInt 3]] in
          let? colors := AppTrimesh.np_array_uint8 raw in
          Ok (coords, colors)).
Proof.
  refine (conversions_agree_on_coordinates
            (JObj [("points",
                    JArr [JObj [("x", JInt 1); ("y", JInt 2); ("z", JInt 3);
                                ("r", JInt 200)]])])
            [("points",
              JArr [JObj [("x", JInt 1); ("y", JInt 2); ("z", JInt 3); ("r", JInt 200)]])]
            [JObj [("x", JInt 1); ("y", JInt 2); ("z", JInt 3); ("r", JInt 200)]]
            [([JInt 1; JInt 2; JInt 3],
              [JFloat (inject_Z 200 / 255); JFloat (inject_Z 128 / 255);
               JFloat (inject_Z 128 / 255)])] _ _ _ _);
    [reflexivity | reflexivity | discriminate | reflexivity].
Defined.

(** X13 on "points": 5. *)
Lemma points_must_be_a_list_witness :
  exists msg,
    App.json_to_ply (JObj [("points", JInt 5)]) (upload_path file_id "ply") empty_world
    = (Raise (TypeError msg), empty_world)
    /\ AppTrimesh.json_to_numpy (JObj [("points", JInt 5)]) = Raise (TypeError msg).
Proof.
  refine (proj1 points_must_be_a_list (JObj [("points", JInt 5)]) [("points", JInt 5)]
            (JInt 5) (upload_path file_id "ply") empty_world _ _ _ _);
    [reflexivity | reflexivity | reflexivity | intros l; discriminate].
Defined.

(** X14 on a point whose g is null. *)
Lemma non_numeric_channel_witness :
  App.normalize_channel (JObj [("x", JInt 0); ("y", JInt 0); ("z", JInt 0); ("g", JNull)]) "g"
  = Raise (TypeError "'>' not supported between instances of 'NoneType' and 'int'").
Proof.
  refine (proj1 (non_numeric_channel_rejected
                   [("x", JInt 0); ("y", JInt 0); ("z", JInt 0); ("g", JNull)]
                   "g" JNull _ _));
    reflexivity.
Defined.

(** X15 on a cloud of 250 points: step 2, 125 indices. *)
Lemma stats_sample_size_witness :
  Forall (fun i => 0 <= i < 250) (AppTrimesh.range_step 250 (Z.max 1 (250 / Z.min 100 250))).
Proof.
  refine (proj1 (proj2 stats_sample_size) 250 _). reflexivity.
Defined.

(** X16 on the upload of a JSON request of four points. *)
Lemma ball_pivoting_stats_witness :
  ticks (snd (App.reconstruct_mesh_ball_pivoting
                (upload_path file_id "ply") (output_path file_id "ply")
                (App.Params (Some (3 # 2)%Q) (Some 2) (Some true) None None)
                (snd (App.save_input (json_request [] four_points) file_id empty_world))))
  = 2%nat.
Proof.
  pose (ps := App.Params (Some (3 # 2)%Q) (Some 2) (Some true) None None).
  pose (w1 := snd (App.save_input (json_request [] four_points) file_id empty_world)).
  pose (run := App.reconstruct_mesh_ball_pivoting
                 (upload_path file_id "ply") (output_path file_id "ply") ps w1).
  pose (st := match fst run with
              | Ok st => st
              | Raise _ => App.Stats 0 0 0 0 [] 0
              end).
  assert (Hthm := ball_pivoting_stats_consistent (upload_path file_id "ply")
                    (output_path file_id "ply") ps w1 st (snd run)).
  destruct Hthm as (_ & _ & Ht & _); [vm_compute; reflexivity |].
  exact Ht.
Defined.

(** X17 on four points with alpha = 0.05. *)
Lemma alpha_shape_stats_witness :
  ticks (snd (AppTrimesh.reconstruct_mesh_alpha_shape
                [[JInt 0]; [JInt 1]; [JInt 2]; [JInt 3]]
                [[JInt 0]; [JInt 1]; [JInt 2]; [JInt 3]] (5 # 100) empty_world))
  = 2%nat.
Proof.
  pose (run := AppTrimesh.reconstruct_mesh_alpha_shape
                 [[JInt 0]; [JInt 1]; [JInt 2]; [JInt 3]]
                 [[JInt 0]; [JInt 1]; [JInt 2]; [JInt 3]] (5 # 100)%Q empty_world).
  pose (result := match fst run with
                  | Ok r => r
                  | Raise _ => ((0, 0), AppTrimesh.Stats 0 0 0 0 0)
                  end).
  assert (Hthm := alpha_shape_stats_consistent
                    [[JInt 0]; [JInt 1]; [JInt 2]; [JInt 3]]
                    [[JInt 0]; [JInt 1]; [JInt 2]; [JInt 3]] (5 # 100)%Q empty_world
                    (fst result) (snd result) (snd run)).
  destruct Hthm as (_ & _ & Ht & _); [vm_compute; reflexivity |].
  exact Ht.
Defined.

(** X18 on a JSON body of four points. *)
Lemma json_to_ply_writes_cloud_witness :
  App.json_to_ply four_points (upload_path file_id "ply") empty_world
  = (Ok tt, World (<[upload_path file_id "ply" := repeat "p"%byte 4]> ∅)
                  [upload_path file_id "ply"] [] 0).
Proof.
  pose (items := [point 0 0 0; point 1 0 0; point 0 1 0; point 0 0 1]).
  pose (rows := match Py.mapM App.point_row items with
                | Ok r => r
                | Raise _ => []
                end).
  refine (proj1 (proj2 (json_to_ply_writes_cloud four_points [("points", JArr items)]
                          items rows (4, false) (upload_path file_id "ply") empty_world
                          _ _ _ _ _))
            (repeat "p"%byte 4) _);
    [reflexivity | reflexivity | discriminate | vm_compute; reflexivity
    | vm_compute; reflexivity | vm_compute; reflexivity].
Defined.

(** X19 on a cloud of one point, whose covariance has no eigen-decomposition. *)
Lemma normals_failure_witness :
  exists e,
    @AppTrimesh.reconstruct_mesh_alpha_shape host degenerate_trimesh
      [[JInt 0; JInt 0; JInt 0]] [[JInt 128; JInt 128; JInt 128]] (5 # 100) empty_world
    = (Raise e, World ∅ [] [] 1).
Proof.
  refine (@normals_failure_aborts_reconstruction host degenerate_trimesh
            [[JInt 0; JInt 0; JInt 0]] [[JInt 128; JInt 128; JInt 128]] (5 # 100)%Q
            empty_world 1 tt [[[JInt 0; JInt 0; JInt 0]]] [[JInt 0; JInt 0; JInt 0]]
            _ _ _ _ _ _);
    [reflexivity | reflexivity | reflexivity | reflexivity | left; reflexivity
    | intros normal Hn; vm_compute in Hn; discriminate].
Defined.

(** X20 on an upload of two points, with a library that needs three. *)
Lemma normal_estimation_witness :
  @App.reconstruct_mesh_ball_pivoting host sparse_open3d
    (upload_path file_id "ply") (output_path file_id "ply")
    (App.Params (Some (3 # 2)%Q) (Some 2) (Some true) None None)
    (World {[upload_path file_id "ply" := ["a"; "b"]%byte]} [] [] 0)
  = (Raise (Exn "RuntimeError" "not enough points to estimate normals"),
     World {[upload_path file_id "ply" := ["a"; "b"]%byte]} [] [] 0).
Proof.
  pose (avg := match np_mean [(1 # 10)%Q; (1 # 10)%Q] with
               | Ok a => a
               | Raise _ => 0%Q
               end).
  refine (@normal_estimation_parameters host sparse_open3d
            (upload_path file_id "ply") (output_path file_id "ply")
            (Some (3 # 2)%Q) (Some 2)
            (World {[upload_path file_id "ply" := ["a"; "b"]%byte]} [] [] 0)
            (2, false) [(1 # 10)%Q; (1 # 10)%Q] avg
            (Exn "RuntimeError" "not enough points to estimate normals") _ _ _ _ _);
    vm_compute; reflexivity.
Defined.

End MoreExamples.
